(** * A tool-calling agent: registry, decision loop and synthesis

    Shallow embedding of [utils.py] (class [ToolRegistry]) and of [main.py]
    (class [AgentExecutor]) and the properties of the decide / execute /
    synthesize control flow.

    Python values that travel through the agent are modelled as follows.
    - What [json.loads] can return is the inductive type [json]; Python
      dictionaries are association lists in insertion order, integers are
      [Z], floats are binary64 primitive floats.
    - Exceptions are values of type [exn]; a computation either returns or
      raises ([res]).
    - Tools, the model service and [print] act on the outside world: they
      run in the monad [M], which threads the state of the world together
      with the chronological log of what the run did there.
    - What comes from the Python library ([json.loads], [json.dumps],
      [repr]) and from the model service is a parameter of the agent
      ([Runtime]); every property holds whatever these are.
    - Strings are sequences of bytes; iterating one yields its bytes, which
      are its characters as long as it is ASCII. *)

From Stdlib Require Import ZArith PrimFloat.
From stdpp Require Import base option list strings pretty.

Set Default Proof Using "Type".
Set Warnings "-inexact-float".

(** ** Python values *)

Module Py.

#[warnings="-register-all"] Inductive json : Type :=
| JNull
| JBool (b : bool)
| JInt (z : Z)
| JFloat (f : float)
| JStr (s : string)
| JArr (items : list json)
| JObj (fields : list (string * json)).

(** The line feed and the double quote, which string literals of this
    file do not spell out. *)
Definition nl : string := String (Ascii.ascii_of_nat 10) EmptyString.
Definition dq : string := String (Ascii.ascii_of_nat 34) EmptyString.

(** [sep.join(parts)] *)
Fixpoint join (sep : string) (parts : list string) : string :=
  match parts with
  | [] => EmptyString
  | [p] => p
  | p :: rest => p +:+ sep +:+ join sep rest
  end.

(** *** Exceptions *)

(** The exception classes the agent can meet. [Other name b] is any other
    class; [b] tells whether it derives from [Exception] ([KeyboardInterrupt]
    and [SystemExit] do not). *)
Inductive exc_class : Type :=
| KeyError
| TypeError
| AttributeError
| JSONDecodeError
| Other (name : string) (derives_Exception : bool).

(** An exception object: its class and [str(e)]. *)
Record exn : Type := Exc { exc_type : exc_class; exc_str : string }.

(** [isinstance(e, Exception)] *)
Definition is_Exception (e : exn) : bool :=
  match exc_type e with
  | Other _ b => b
  | _ => true
  end.

Inductive res (A : Type) : Type :=
| Ok (a : A)
| Raise (e : exn).
Arguments Ok {A} a.
Arguments Raise {A} e.

(** *** Dictionaries with string keys *)

(** [d.get(k)], as an option *)
Fixpoint dict_get {V : Type} (k : string) (d : list (string * V)) : option V :=
  match d with
  | [] => None
  | (k', v) :: rest => if decide (k' = k) then Some v else dict_get k rest
  end.

(** [d[k] = v]: an existing key keeps its place, a new one goes last. *)
Fixpoint dict_set {V : Type} (k : string) (v : V) (d : list (string * V))
  : list (string * V) :=
  match d with
  | [] => [(k, v)]
  | (k', v') :: rest =>
      if decide (k' = k) then (k, v) :: rest else (k', v') :: dict_set k v rest
  end.

(** [repr(s)] of a key without quotes or backslashes, as [KeyError] shows it *)
Definition key_repr (k : string) : string := "'" +:+ k +:+ "'".

(** [type(v).__name__] *)
Definition type_name (v : json) : string :=
  match v with
  | JNull => "NoneType"
  | JBool _ => "bool"
  | JInt _ => "int"
  | JFloat _ => "float"
  | JStr _ => "str"
  | JArr _ => "list"
  | JObj _ => "dict"
  end.

(** [v.get(k, dflt)]: among JSON values only dictionaries have the method. *)
Definition get_method (v : json) (k : string) (dflt : json) : res json :=
  match v with
  | JObj fields => Ok (default dflt (dict_get k fields))
  | _ => Raise (Exc AttributeError
                  ("'" +:+ type_name v +:+ "' object has no attribute 'get'"))
  end.

(** [v[k]] for a string [k] (messages as CPython 3.12 words them) *)
Definition getitem (v : json) (k : string) : res json :=
  match v with
  | JObj fields =>
      match dict_get k fields with
      | Some x => Ok x
      | None => Raise (Exc KeyError (key_repr k))
      end
  | JArr _ => Raise (Exc TypeError "list indices must be integers or slices, not str")
  | JStr _ => Raise (Exc TypeError "string indices must be integers, not 'str'")
  | _ => Raise (Exc TypeError ("'" +:+ type_name v +:+ "' object is not subscriptable"))
  end.

(** Lists and dictionaries cannot be dictionary keys. *)
Definition hashable (v : json) : bool :=
  match v with
  | JArr _ | JObj _ => false
  | _ => true
  end.

Definition unhashable (v : json) : exn :=
  Exc TypeError ("unhashable type: '" +:+ type_name v +:+ "'").

Fixpoint chars (s : string) : list string :=
  match s with
  | EmptyString => []
  | String c rest => String c EmptyString :: chars rest
  end.

(** What [for x in v] walks through: the items of a list, the keys of a
    dictionary, the characters of a string; nothing else can be iterated. *)
Definition iterate (v : json) : res (list json) :=
  match v with
  | JArr items => Ok items
  | JObj fields => Ok (JStr <$> fields.*1)
  | JStr s => Ok (JStr <$> chars s)
  | _ => Raise (Exc TypeError ("'" +:+ type_name v +:+ "' object is not iterable"))
  end.

(** [v == s] for a string literal [s] *)
Definition eq_str (v : json) (s : string) : bool :=
  match v with
  | JStr s' => bool_decide (s' = s)
  | _ => false
  end.

(** What a tool may hand back: a value [json.dumps] accepts, or some other
    object, of which only the type name and [str(o)] matter here. *)
Inductive pyval : Type :=
| Json (v : json)
| Opaque (tp : string) (str : string).

End Py.
Export Py.

(** ** The orchestration client ([gen_ai_hub.orchestration]) *)

Inductive Message : Type :=
| SystemMessage (content : string)
| UserMessage (content : string)
| AssistantMessage (content : string).

Inductive ResponseFormat : Type :=
| ResponseFormatJsonSchema (name description : string) (schema : json)
| ResponseFormatText.

Record Template : Type :=
  { template_messages : list Message;
    template_response_format : ResponseFormat }.

Record LLM : Type :=
  { llm_name : string; llm_version : string; llm_parameters : json }.

Record OrchestrationConfig : Type :=
  { config_template : Template; config_llm : LLM }.

(** ** Effects *)

Section Effects.
Context {W : Type}.

(** A callable: the name CPython shows for it in call errors, and what a
    call with keyword arguments does to the world. *)
Record callable : Type :=
  { shown_as : string;
    body : list (string * json) -> W -> res pyval * W }.

(** What a run does to the outside, in the order it does it. *)
Inductive event : Type :=
| Invoked (f : callable) (kwargs : list (string * json))
| Requested (config : OrchestrationConfig)
| Printed (text : string).

Record estate : Type := { world : W; log : list event }.

Definition M (A : Type) : Type := estate -> res A * estate.

Definition ret {A} (a : A) : M A := fun s => (Ok a, s).
Definition raise {A} (e : exn) : M A := fun s => (Raise e, s).
Definition bind {A B} (m : M A) (k : A -> M B) : M B :=
  fun s => match m s with
           | (Ok a, s') => k a s'
           | (Raise e, s') => (Raise e, s')
           end.
Definition lift {A} (r : res A) : M A := fun s => (r, s).

(** [try: m  except Exception as e: h e] *)
Definition try_except {A} (m : M A) (h : exn -> M A) : M A :=
  fun s => match m s with
           | (Raise e, s') => if is_Exception e then h e s' else (Raise e, s')
           | r => r
           end.

Definition emit (ev : event) : M unit :=
  fun s => (Ok tt, {| world := world s; log := log s ++ [ev] |}).

(** Running an outside action on the world. *)
Definition perform {A} (act : W -> res A * W) : M A :=
  fun s => let (r, w) := act (world s) in (r, {| world := w; log := log s |}).

(** [print(text)]. Writing to the standard output is taken to go through: a
    stream that refuses the text (one that cannot encode it, a closed pipe)
    is outside this model, and so is what the agent does then. *)
Definition print (text : string) : M unit := emit (Printed text).

(** Calling [f] with [args] unpacked by the double star: [args] has to be
    a mapping, whose items become the keyword arguments. *)
Definition call_kwargs (f : callable) (args : json) : M pyval :=
  match args with
  | JObj kwargs =>
      bind (emit (Invoked f kwargs)) (fun _ => perform (body f kwargs))
  | _ => raise (Exc TypeError
                  (shown_as f +:+ " argument after ** must be a mapping, not "
                   +:+ type_name args))
  end.

(** The state after [f] was entered with [kwargs] and left the world as [w]. *)
Definition entered (es : estate) (f : callable) (kwargs : list (string * json))
    (w : W) : estate :=
  {| world := w; log := log es ++ [Invoked f kwargs] |}.

(** The invocations of a log, oldest first. *)
Definition invocations (l : list event) : list (callable * list (string * json)) :=
  omap (fun ev => match ev with Invoked f kw => Some (f, kw) | _ => None end) l.

(** The requests sent to the model service, oldest first. *)
Definition requests (l : list event) : list OrchestrationConfig :=
  omap (fun ev => match ev with Requested c => Some c | _ => None end) l.

End Effects.
Arguments callable : clear implicits.
Arguments event : clear implicits.
Arguments estate : clear implicits.
Arguments M : clear implicits.

Declare Scope py_scope.
Delimit Scope py_scope with py.
Notation "x <- m ;; k" := (bind m (fun x => k))
  (at level 100, m at next level, right associativity) : py_scope.
Notation "m ;;; k" := (bind m (fun _ => k))
  (at level 100, right associativity) : py_scope.
Open Scope py_scope.

(** ** utils.py: the tool registry *)

Module utils.
Section Registry.
Context {W : Type}.

(** What is stored under a descriptor's function key: a callable, or any
    other value ([Data JNull] is [None]). *)
Inductive pyobj : Type :=
| Function (f : callable W)
| Data (v : json).

(** [callable(o)] *)
Definition is_callable (o : pyobj) : bool :=
  match o with
  | Function _ => true
  | Data _ => false
  end.

Record descriptor : Type :=
  { function : pyobj; description : json; parameters : json }.

Record ToolRegistry : Type := { tools : list (string * descriptor) }.

(** [ToolRegistry()] *)
Definition new : ToolRegistry := {| tools := [] |}.

Definition register (self : ToolRegistry) (name : string)
    (function : pyobj) (description parameters : json) : ToolRegistry :=
  {| tools := dict_set name
                {| function := function;
                   description := description;
                   parameters := parameters |}
                (tools self) |}.

(** The dictionary comprehension [{k: f(v) for k, v in items}] *)
Definition comprehension {A B : Type} (f : A -> B) (items : list (string * A))
  : list (string * B) :=
  foldl (fun acc kv => dict_set kv.1 (f kv.2) acc) [] items.

Definition prompt_view (entry : descriptor) : json :=
  JObj [("description", description entry); ("parameters", parameters entry)].

Definition get_description_for_prompt (self : ToolRegistry)
  : list (string * json) :=
  comprehension prompt_view (tools self).

(** [self.tools.get(name, {}).get("function")] *)
Definition get_callable (self : ToolRegistry) (name : json) : res pyobj :=
  if hashable name then
    let entry := match name with
                 | JStr key => dict_get key (tools self)
                 | _ => None
                 end in
    Ok match entry with
       | Some found => function found
       | None => Data JNull
       end
  else Raise (unhashable name).

(** The names a registry knows, in registration order. *)
Definition names (self : ToolRegistry) : list string := (tools self).*1.

(** Keys of a Python dictionary are pairwise different. *)
Definition wf (self : ToolRegistry) : Prop := NoDup (names self).

End Registry.
Arguments pyobj : clear implicits.
Arguments descriptor : clear implicits.
Arguments ToolRegistry : clear implicits.
End utils.

(** ** main.py: the agent *)

(** What the agent takes from the Python runtime and from the model
    service; none of it is code of this repository. *)
Record Runtime (W : Type) : Type :=
  { (** [json.loads(text)] *)
    json_loads : string -> res json;
    (** [json.dumps(v)] on a value it accepts *)
    json_dumps : json -> string;
    (** [json.dumps(v, indent=2)] on a value it accepts *)
    json_dumps_indent : json -> string;
    (** [repr(v)] *)
    repr : json -> string;
    (** [OrchestrationService(config).run()], down to the content of the
        first choice's message *)
    service_run : OrchestrationConfig -> W -> res string * W }.
Arguments json_loads {W} _ _.
Arguments json_dumps {W} _ _.
Arguments json_dumps_indent {W} _ _.
Arguments repr {W} _ _.
Arguments service_run {W} _ _ _.

Module main.
Import utils.
Section Agent.
Context {W : Type} (rt : Runtime W).

(** [str(v)] *)
Definition str (v : json) : string :=
  match v with
  | JStr s => s
  | _ => repr rt v
  end.

Definition str_of (r : pyval) : string :=
  match r with
  | Json v => str v
  | Opaque _ s => s
  end.

(** [json.dumps(r)] on any object *)
Definition dumps (r : pyval) : res string :=
  match r with
  | Json v => Ok (json_dumps rt v)
  | Opaque tp _ =>
      Raise (Exc TypeError ("Object of type " +:+ tp +:+ " is not JSON serializable"))
  end.

Definition OrchestrationService_run (config : OrchestrationConfig) : M W string :=
  emit (Requested config) ;;; perform (service_run rt config).

(** The registrations at the top of the file, over the three functions of
    tools.py. *)
Definition registry (get_weather get_time_now retriever : pyobj W) : ToolRegistry W :=
  let r := new in
  let r := register r "get_weather" get_weather
    (JStr "Retrieves current weather data for a given set of geographic coordinates (latitude, longitude).")
    (JObj [("latitude", JStr "float - The latitude of the location.");
           ("longitude", JStr "float - The longitude of the location.")]) in
  let r := register r "get_time_now" get_time_now
    (JStr "Returns the current local time in YYYY-MM-DD HH:MM:SS format.")
    (JObj []) in
  register r "retriever" retriever
    (JStr "Retrieves an answer using RAG from documents stored in SAP HANA Cloud for SAP Business Data Cloud and SAP Generative AI Hub in SAP AI Core content")
    (JObj [("question", JStr "string - The question you want to ask based on the document context.")]).

Record AgentExecutor : Type :=
  { llm : LLM; tool_registry : ToolRegistry W; verbose : bool }.

Definition _build_dynamic_schema (self : AgentExecutor) : json :=
  JObj [
    ("title", JStr "ToolCalls");
    ("type", JStr "object");
    ("properties", JObj [
      ("tool_calls", JObj [
        ("type", JStr "array");
        ("items", JObj [
          ("type", JStr "object");
          ("properties", JObj [
            ("decision", JObj [("type", JStr "string")]);
            ("reason", JObj [("type", JStr "string")]);
            ("function", JObj [("type", JStr "string")]);
            ("parameters", JObj [("type", JStr "object")])
          ]);
          ("required", JArr [JStr "decision"; JStr "reason"; JStr "function"; JStr "parameters"])
        ])
      ])
    ]);
    ("required", JArr [JStr "tool_calls"])
  ].

Definition _generate_instruction (self : AgentExecutor) : string :=
  let description :=
    json_dumps_indent rt (JObj (get_description_for_prompt (tool_registry self))) in
  join nl [
    EmptyString;
    "                You are an intelligent AI assistant capable of deciding whether to invoke tools based on the user's request.";
    EmptyString;
    "                Available tools:";
    "                " +:+ description;
    EmptyString;
    "                Instructions:";
    "                - For each relevant tool, return a JSON entry with the function name and parameters.";
    "                - If no tool is relevant, return an entry with decision = " +:+ dq +:+ "no_tool" +:+ dq +:+ ".";
    EmptyString;
    "                Return ONLY valid JSON like:";
    "                {";
    "                " +:+ dq +:+ "tool_calls" +:+ dq +:+ ": [";
    "                    {";
    "                    " +:+ dq +:+ "decision" +:+ dq +:+ ": " +:+ dq +:+ "tool" +:+ dq +:+ ",";
    "                    " +:+ dq +:+ "reason" +:+ dq +:+ ": " +:+ dq +:+ "The user asked for weather." +:+ dq +:+ ",";
    "                    " +:+ dq +:+ "function" +:+ dq +:+ ": " +:+ dq +:+ "get_weather" +:+ dq +:+ ",";
    "                    " +:+ dq +:+ "parameters" +:+ dq +:+ ": {";
    "                        " +:+ dq +:+ "latitude" +:+ dq +:+ ": 48.8566,";
    "                        " +:+ dq +:+ "longitude" +:+ dq +:+ ": 2.3522";
    "                    }";
    "                    },";
    "                    {";
    "                    " +:+ dq +:+ "decision" +:+ dq +:+ ": " +:+ dq +:+ "tool" +:+ dq +:+ ",";
    "                    " +:+ dq +:+ "reason" +:+ dq +:+ ": " +:+ dq +:+ "The user asked for time." +:+ dq +:+ ",";
    "                    " +:+ dq +:+ "function" +:+ dq +:+ ": " +:+ dq +:+ "get_time_now" +:+ dq +:+ ",";
    "                    " +:+ dq +:+ "parameters" +:+ dq +:+ ": {}";
    "                    }";
    "                ]";
    "                }";
    "                "
  ].

Definition _execute_tool (self : AgentExecutor) (decision : json) : M W pyval :=
  func_name <- lift (getitem decision "function") ;;
  args <- lift (get_method decision "parameters" (JObj [])) ;;
  func <- lift (get_callable (tool_registry self) func_name) ;;
  match func with
  | Function f =>
      try_except
        (result <- call_kwargs f args ;;
         (if verbose self then
            print (nl +:+ "Tool '" +:+ str func_name +:+ "' executed with args "
                   +:+ str args +:+ ". Result: " +:+ str_of result)
          else ret tt) ;;;
         ret result)
        (fun e => ret (Json (JStr ("Error: " +:+ exc_str e))))
  | Data _ =>
      ret (Json (JStr ("Function '" +:+ str func_name +:+ "' not found.")))
  end.

(** The text of the system message that opens the synthesis turn. *)
Definition synthesis_instruction : string :=
  join nl [
    " ";
    "            You now have access to the results provided by the tools. When the results are clear and complete, use only that information to answer the user's ";
    "            question in a natural, helpful, and concise manner. However, if any result appears vague, incomplete, or states uncertainty (e.g., " +:+ dq +:+ "I don't know" +:+ dq +:+ "), ";
    "            rely on your own knowledge to deliver an accurate and informative response.";
    "            Always avoid requesting information already provided. Focus on clarity, relevance, and user value.";
    EmptyString;
    "            "
  ].

(** One line of the summary, for one collected pair. *)
Definition summary_line (entry : json * pyval) : res string :=
  match dumps entry.2 with
  | Ok text => Ok ("- Tool `" +:+ str entry.1 +:+ "` returned: " +:+ text)
  | Raise e => Raise e
  end.

(** The list comprehension over [tool_results]: it stops at the first
    result that cannot be serialized. *)
Fixpoint summary_lines (tool_results : list (json * pyval)) : res (list string) :=
  match tool_results with
  | [] => Ok []
  | entry :: rest =>
      match summary_line entry with
      | Ok line =>
          match summary_lines rest with
          | Ok lines => Ok (line :: lines)
          | Raise e => Raise e
          end
      | Raise e => Raise e
      end
  end.

Definition _finalize_response (self : AgentExecutor) (original_query : string)
    (tool_results : list (json * pyval)) (messages : list Message) : M W string :=
  let messages := messages ++ [SystemMessage synthesis_instruction] in
  let messages := messages ++ [UserMessage ("User question: " +:+ original_query)] in
  lines <- lift (summary_lines tool_results) ;;
  let tool_summary := join nl lines in
  let messages := messages ++ [UserMessage ("Tool Results:" +:+ nl +:+ tool_summary)] in
  let template :=
    {| template_messages := messages;
       template_response_format := ResponseFormatText |} in
  let config := {| config_template := template; config_llm := llm self |} in
  OrchestrationService_run config.

(** The body of the loop of [run], on the two lists it grows. *)
Definition handle_decision (self : AgentExecutor)
    (acc : list (json * pyval) * list Message) (decision : json)
  : M W (list (json * pyval) * list Message) :=
  let '(tool_results, messages) := acc in
  kind <- lift (get_method decision "decision" JNull) ;;
  if eq_str kind "tool" then
    tool_response <- _execute_tool self decision ;;
    func_name <- lift (getitem decision "function") ;;
    let tool_results := tool_results ++ [(func_name, tool_response)] in
    ret (tool_results, messages ++ [AssistantMessage (json_dumps rt decision)])
  else
    ret (tool_results, messages ++ [AssistantMessage (json_dumps rt decision)]).

(** The loop of [run] over the decisions. *)
Fixpoint for_decisions (self : AgentExecutor) (decisions : list json)
    (acc : list (json * pyval) * list Message)
  : M W (list (json * pyval) * list Message) :=
  match decisions with
  | [] => ret acc
  | decision :: rest =>
      acc' <- handle_decision self acc decision ;;
      for_decisions self rest acc'
  end.

Definition run (self : AgentExecutor) (user_query : string) : M W string :=
  let system_message := SystemMessage (_generate_instruction self) in
  let prompt := UserMessage user_query in
  let messages := [system_message; prompt] in
  let template :=
    {| template_messages := messages;
       template_response_format :=
         ResponseFormatJsonSchema "ToolCall" "Tool execution format"
           (_build_dynamic_schema self) |} in
  let config := {| config_template := template; config_llm := llm self |} in
  content <- OrchestrationService_run config ;;
  decisions_json <- lift (json_loads rt content) ;;
  (if verbose self then
     print (nl +:+ "LLM Reasoning:") ;;;
     print (json_dumps_indent rt decisions_json)
   else ret tt) ;;;
  let tool_results := [] in
  let messages := [system_message; prompt] in
  tool_calls <- lift (get_method decisions_json "tool_calls" (JArr [])) ;;
  decisions <- lift (iterate tool_calls) ;;
  acc <- for_decisions self decisions (tool_results, messages) ;;
  _finalize_response self user_query acc.1 acc.2.

End Agent.
End main.

(** ** What the claims speak about *)

Module schema.

Definition is_string (v : json) : bool :=
  match v with JStr _ => true | _ => false end.

Definition is_object (v : json) : bool :=
  match v with JObj _ => true | _ => false end.

(** A property that is present has the given type. *)
Definition typed (fields : list (string * json)) (k : string)
    (type : json -> bool) : bool :=
  match dict_get k fields with
  | Some v => type v
  | None => true
  end.

Definition has (fields : list (string * json)) (k : string) : bool :=
  bool_decide (is_Some (dict_get k fields)).

(** An entry of [tool_calls] as the schema of [_build_dynamic_schema]
    wants it: an object that has the four required keys, the first three
    being strings and the last an object. *)
Definition conforms_item (v : json) : bool :=
  match v with
  | JObj fields =>
      forallb (has fields) ["decision"; "reason"; "function"; "parameters"]
      && typed fields "decision" is_string
      && typed fields "reason" is_string
      && typed fields "function" is_string
      && typed fields "parameters" is_object
  | _ => false
  end.

(** A document as that schema wants it: an object with the required key
    [tool_calls], which holds an array of such entries. *)
Definition conforms (v : json) : bool :=
  match v with
  | JObj fields =>
      match dict_get "tool_calls" fields with
      | Some (JArr items) => forallb conforms_item items
      | _ => false
      end
  | _ => false
  end.

End schema.

Module plan.
Import utils main.
Section Plan.
Context {W : Type}.

(** [decision.get("decision") == "tool"] on a dictionary *)
Definition is_tool (decision : json) : bool :=
  match get_method decision "decision" JNull with
  | Ok kind => eq_str kind "tool"
  | Raise _ => false
  end.

(** The value under the function key of a decision. *)
Definition function_of (decision : json) : option json :=
  match getitem decision "function" with
  | Ok v => Some v
  | Raise _ => None
  end.

(** The call a tool decision leads to: the callable its function name
    resolves to, with the items of its parameters; none when the name
    resolves to no callable or the parameters are no mapping. *)
Definition call_of (self : @AgentExecutor W) (decision : json)
  : option (callable W * list (string * json)) :=
  match getitem decision "function" with
  | Ok func_name =>
      match get_callable (tool_registry self) func_name,
            get_method decision "parameters" (JObj []) with
      | Ok (Function f), Ok (JObj kwargs) => Some (f, kwargs)
      | _, _ => None
      end
  | Raise _ => None
  end.

Context (rt : Runtime W).

(** The two messages every conversation of [run] starts with. *)
Definition opening (self : @AgentExecutor W) (user_query : string) : list Message :=
  [SystemMessage (_generate_instruction rt self); UserMessage user_query].

(** The request [run] opens with: the opening messages, to be answered in
    the format of the schema. *)
Definition decision_request (self : @AgentExecutor W) (user_query : string)
  : OrchestrationConfig :=
  {| config_template :=
       {| template_messages := opening self user_query;
          template_response_format :=
            ResponseFormatJsonSchema "ToolCall" "Tool execution format"
              (_build_dynamic_schema self) |};
     config_llm := llm self |}.

(** The state in which the loop of [run] starts: the service has answered
    the decision request, leaving the world as [w], the answer has been
    parsed into [decisions_json] and, if asked for, printed. *)
Definition loop_start (self : @AgentExecutor W) (user_query : string)
    (es : estate W) (w : W) (decisions_json : json) : estate W :=
  {| world := w;
     log := (log es ++ [Requested (decision_request self user_query)])
            ++ (if verbose self then
                  [Printed (nl +:+ "LLM Reasoning:");
                   Printed (json_dumps_indent rt decisions_json)]
                else []) |}.

(** The Decision Phase of [run], started in [es], went through: the
    answer parsed, and its [tool_calls] are the [decisions], with which
    the loop starts in [es']. *)
Definition decided (self : @AgentExecutor W) (user_query : string)
    (es : estate W) (decisions : list json) (es' : estate W) : Prop :=
  exists content w decisions_json tool_calls,
    service_run rt (decision_request self user_query) (world es) = (Ok content, w)
    /\ json_loads rt content = Ok decisions_json
    /\ get_method decisions_json "tool_calls" (JArr []) = Ok tool_calls
    /\ iterate tool_calls = Ok decisions
    /\ es' = loop_start self user_query es w decisions_json.

(** The reading of the specification under which an answer that parses
    but does not conform to the schema is fatal to the run. *)
Definition malformed_is_fatal (self : @AgentExecutor W) (user_query : string)
    (es : estate W) : Prop :=
  forall content w decisions_json,
    service_run rt (decision_request self user_query) (world es) = (Ok content, w) ->
    json_loads rt content = Ok decisions_json ->
    schema.conforms decisions_json = false ->
    exists e es', run rt self user_query es = (Raise e, es').

(** The request of the Synthesis Phase: the conversation so far, the
    synthesis instruction, the question and the summary, to be answered
    in plain text. *)
Definition synthesis_request (self : @AgentExecutor W) (original_query : string)
    (messages : list Message) (tool_summary : string) : OrchestrationConfig :=
  {| config_template :=
       {| template_messages :=
            messages
            ++ [SystemMessage synthesis_instruction;
                UserMessage ("User question: " +:+ original_query);
                UserMessage ("Tool Results:" +:+ nl +:+ tool_summary)];
          template_response_format := ResponseFormatText |};
     config_llm := llm self |}.

End Plan.
End plan.

(** ** A small world to run the agent in

    The world is a counter of the outside actions performed so far. The
    model service is a stub that answers a fixed text to the decision request
    and another one to the synthesis request; the parser knows that one text. *)

Module Demo.
Import utils main.

Fixpoint show (v : json) : string :=
  match v with
  | JNull => "null"
  | JBool true => "true"
  | JBool false => "false"
  | JInt z => pretty z
  | JFloat _ => "<float>"
  | JStr s => dq +:+ s +:+ dq
  | JArr items => "[" +:+ join ", " (map show items) +:+ "]"
  | JObj fields =>
      "{" +:+ join ", " (map (fun kv => dq +:+ kv.1 +:+ dq +:+ ": " +:+ show kv.2) fields)
      +:+ "}"
  end.

Definition rt (reply : string) (parsed : res json) : Runtime nat :=
  {| json_loads := fun text =>
       if decide (text = reply) then parsed
       else Raise (Exc JSONDecodeError "Expecting value: line 1 column 1 (char 0)");
     json_dumps := show;
     json_dumps_indent := show;
     repr := show;
     service_run := fun config w =>
       match template_response_format (config_template config) with
       | ResponseFormatJsonSchema _ _ _ => (Ok reply, S w)
       | ResponseFormatText => (Ok "final answer", S w)
       end |}.

Definition get_time_now : callable nat :=
  {| shown_as := "get_time_now()";
     body := fun kwargs w =>
       match kwargs with
       | [] => (Ok (Json (JObj [("time", JStr "2025-06-01 12:00:00")])), S w)
       | (k, _) :: _ =>
           (Raise (Exc TypeError
                     ("get_time_now() got an unexpected keyword argument '" +:+ k +:+ "'")),
            w)
       end |}.

Definition get_weather : callable nat :=
  {| shown_as := "get_weather()";
     body := fun kwargs w =>
       match dict_get "latitude" kwargs, dict_get "longitude" kwargs with
       | Some _, Some _ =>
           (Ok (Json (JObj [("temperature_2m", JFloat 21.5);
                            ("wind_speed_10m", JFloat 3.5)])), S w)
       | _, _ =>
           (Raise (Exc TypeError "get_weather() missing required positional arguments"), w)
       end |}.

(** A retriever whose document store cannot be reached. *)
Definition retriever : callable nat :=
  {| shown_as := "retriever()";
     body := fun _ w =>
       (Raise (Exc (Other "ConnectionError" true) "document store unreachable"), S w) |}.

Definition registry : ToolRegistry nat :=
  main.registry (Function get_weather) (Function get_time_now) (Function retriever).

(** The same registry with one more entry, whose function is not one. *)
Definition registry_with_note : ToolRegistry nat :=
  register registry "note" (Data (JStr "not a function"))
    (JStr "A note.") (JObj []).

Definition gpt : LLM :=
  {| llm_name := "gpt-4o";
     llm_version := "latest";
     llm_parameters := JObj [("max_tokens", JInt 2000); ("temperature", JFloat 0.2)] |}.

Definition agent (r : ToolRegistry nat) : AgentExecutor :=
  {| llm := gpt; tool_registry := r; verbose := true |}.

Definition start : estate nat := {| world := 0; log := [] |}.

Definition decision_fields (kind function : string) (parameters : json)
  : list (string * json) :=
  [("decision", JStr kind); ("reason", JStr "because");
   ("function", JStr function); ("parameters", parameters)].

Definition decision (kind function : string) (parameters : json) : json :=
  JObj (decision_fields kind function parameters).

(** The state in which the loop starts after the stub has answered ["R"],
    parsed as [decisions_json], to the question [user_query]. *)
Definition loop_begin (r : ToolRegistry nat) (user_query : string)
    (decisions_json : json) : estate nat :=
  plan.loop_start (rt "R" (Ok decisions_json)) (agent r) user_query start 1
    decisions_json.

Definition tool_calls (decisions : list json) : json :=
  JObj [("tool_calls", JArr decisions)].

End Demo.

(** ** Further notions for the properties of the whole files *)

Module observe.
Import utils main.
Section Observe.
Context {W : Type}.

(** A log without what was printed. *)
Definition silent (l : list (event W)) : list (event W) :=
  omap (fun ev => match ev with Printed _ => None | _ => Some ev end) l.

(** The same agent, told not to print. *)
Definition quiet (self : @AgentExecutor W) : AgentExecutor :=
  {| llm := llm self; tool_registry := tool_registry self; verbose := false |}.

(** A registry built from nothing by the registrations of a list, in order. *)
Definition registered (regs : list (string * descriptor W)) : ToolRegistry W :=
  foldl (fun r reg => register r reg.1 (function reg.2) (description reg.2)
                        (parameters reg.2))
        new regs.

(** Every callable of the registry returns, when it returns, a value that
    [json.dumps] accepts. *)
Definition returns_json (r : ToolRegistry W) : Prop :=
  forall key entry f kwargs w result w',
    dict_get key (tools r) = Some entry ->
    function entry = Function f ->
    body f kwargs w = (Ok result, w') ->
    exists v, result = Json v.

Definition is_json (result : pyval) : Prop := exists v, result = Json v.

Context (rt : Runtime W).

(** The reading of the specification under which whatever a resolved
    callable raises is turned into an ["Error: ..."] result. *)
Definition every_raise_reported (self : @AgentExecutor W) : Prop :=
  forall fields key entry f kwargs e w es,
    plan.is_tool (JObj fields) = true ->
    dict_get "function" fields = Some (JStr key) ->
    dict_get key (tools (tool_registry self)) = Some entry ->
    function entry = Function f ->
    default (JObj []) (dict_get "parameters" fields) = JObj kwargs ->
    body f kwargs (world es) = (Raise e, w) ->
    (_execute_tool rt self (JObj fields) es).1
    = Ok (Json (JStr ("Error: " +:+ exc_str e))).

End Observe.
End observe.

(** A second small world, with tools that misbehave. *)
Module Lab.
Import utils main.

(** A tool the user interrupts from the keyboard. *)
Definition interrupted : callable nat :=
  {| shown_as := "interrupted()";
     body := fun _ w => (Raise (Exc (Other "KeyboardInterrupt" false) EmptyString), S w) |}.

(** A tool that returns a set, which [json.dumps] rejects. *)
Definition tags : callable nat :=
  {| shown_as := "tags()";
     body := fun _ w => (Ok (Opaque "set" "{'a', 'b'}"), S w) |}.

Definition registry : ToolRegistry nat :=
  register
    (register Demo.registry "interrupted" (Function interrupted)
       (JStr "Never comes back.") (JObj []))
    "tags" (Function tags) (JStr "Returns a set of tags.") (JObj []).

(** A model service that cannot be reached. *)
Definition rt_down : Runtime nat :=
  {| json_loads := json_loads (Demo.rt "R" (Ok (JObj [])));
     json_dumps := Demo.show;
     json_dumps_indent := Demo.show;
     repr := Demo.show;
     service_run := fun _ w =>
       (Raise (Exc (Other "ConnectionError" true) "service unreachable"), S w) |}.

End Lab.

(** ** tools.py: the clock and the weather

    The two functions of tools.py that stand on their own. What they reach
    outside, the wall clock and the forecast service, is a parameter
    ([Outside]); a call binds the keyword arguments to the parameters of the
    function as Python does. The retriever is left out: it lives inside the
    retrieval framework. *)

Module tools.
Import main.

(** What [datetime.now()] returns, down to the second. *)
Record datetime : Type :=
  { year : nat; month : nat; day : nat; hour : nat; minute : nat; second : nat }.

Definition digit (n : nat) : Ascii.ascii := Ascii.ascii_of_nat (48 + n mod 10).

Definition two_digits (n : nat) : string :=
  String (digit (n / 10)) (String (digit n) EmptyString).

Definition four_digits (n : nat) : string :=
  String (digit (n / 1000)) (String (digit (n / 100))
    (String (digit (n / 10)) (String (digit n) EmptyString))).

(** [t.strftime("%Y-%m-%d %H:%M:%S")], for the years from 1000 on, which the
    C library prints with four digits everywhere. *)
Definition strftime (t : datetime) : string :=
  four_digits (year t) +:+ "-" +:+ two_digits (month t) +:+ "-" +:+ two_digits (day t)
  +:+ " " +:+ two_digits (hour t) +:+ ":" +:+ two_digits (minute t)
  +:+ ":" +:+ two_digits (second t).

Definition is_digit (c : Ascii.ascii) : bool :=
  (48 <=? Ascii.nat_of_ascii c) && (Ascii.nat_of_ascii c <=? 57).

(** A text of the shape YYYY-MM-DD HH:MM:SS: nineteen characters, digits
    but for the two dashes, the space and the two colons. *)
Definition is_timestamp (s : string) : bool :=
  match String.list_ascii_of_string s with
  | [y1; y2; y3; y4; a; m1; m2; b; d1; d2; c; h1; h2; d; n1; n2; e; s1; s2] =>
      forallb is_digit [y1; y2; y3; y4; m1; m2; d1; d2; h1; h2; n1; n2; s1; s2]
      && bool_decide ([a; b; c; d; e] = String.list_ascii_of_string "-- ::")
  | _ => false
  end.

(** The names of a message, as Python lists them: ['a'], ['a' and 'b'],
    ['a', 'b', and 'c']. *)
Fixpoint listed_rest (names : list string) : string :=
  match names with
  | [] => EmptyString
  | [b] => "and " +:+ key_repr b
  | b :: rest => key_repr b +:+ ", " +:+ listed_rest rest
  end.

Definition listed (names : list string) : string :=
  match names with
  | [] => EmptyString
  | [a] => key_repr a
  | [a; b] => key_repr a +:+ " and " +:+ key_repr b
  | a :: rest => key_repr a +:+ ", " +:+ listed_rest rest
  end.

(** Calling a function whose parameters are all required, with keyword
    arguments only: the first keyword that is no parameter is an error,
    then the parameters without a keyword are. *)
Definition binding_error (fname : string) (params : list string)
    (kwargs : list (string * json)) : option exn :=
  match List.filter (fun k => negb (bool_decide (k ∈ params))) kwargs.*1 with
  | k :: _ =>
      Some (Exc TypeError
              (fname +:+ "() got an unexpected keyword argument " +:+ key_repr k))
  | [] =>
      match List.filter (fun p => negb (bool_decide (p ∈ kwargs.*1))) params with
      | [] => None
      | missing =>
          Some (Exc TypeError
                  (fname +:+ "() missing " +:+ pretty (length missing)
                   +:+ " required positional argument"
                   +:+ (if decide (length missing = 1) then ": " else "s: ")
                   +:+ listed missing))
      end
  end.

Section Tools.
Context {W : Type} (rt : Runtime W).

Record Outside : Type :=
  { (** [datetime.now()] *)
    now : W -> datetime * W;
    (** [requests.get(url).json()]: the body of the response, parsed, or what
        either call raised *)
    get_json : string -> W -> res json * W }.

Context (out : Outside).

Definition get_time_now : callable W :=
  {| shown_as := "tools.get_time_now()";
     body := fun kwargs w =>
       match binding_error "get_time_now" [] kwargs with
       | Some e => (Raise e, w)
       | None =>
           let (t, w') := now out w in
           (Ok (Json (JObj [("time", JStr (strftime t))])), w')
       end |}.

(** The address [get_weather] asks, for the two coordinates. *)
Definition forecast_url (latitude longitude : json) : string :=
  "https://api.open-meteo.com/v1/forecast?latitude=" +:+ str rt latitude
  +:+ "&longitude=" +:+ str rt longitude
  +:+ "&current=temperature_2m,wind_speed_10m&hourly=temperature_2m,relative_humidity_2m,wind_speed_10m".

Definition get_weather : callable W :=
  {| shown_as := "tools.get_weather()";
     body := fun kwargs w =>
       match binding_error "get_weather" ["latitude"; "longitude"] kwargs with
       | Some e => (Raise e, w)
       | None =>
           let latitude := default JNull (dict_get "latitude" kwargs) in
           let longitude := default JNull (dict_get "longitude" kwargs) in
           match get_json out (forecast_url latitude longitude) w with
           | (Ok data, w') =>
               (match getitem data "current" with
                | Ok current => Ok (Json current)
                | Raise e => Raise e
                end, w')
           | (Raise e, w') => (Raise e, w')
           end
       end |}.

End Tools.
Arguments Outside : clear implicits.

(** An outside for the small world: the clock stands still, and the forecast
    service knows one place, north of Paris, only. *)
Definition paris : string :=
  "https://api.open-meteo.com/v1/forecast?latitude=49&longitude=2&current=temperature_2m,wind_speed_10m&hourly=temperature_2m,relative_humidity_2m,wind_speed_10m".

Definition outside : Outside nat :=
  {| now := fun w =>
       ({| year := 2025; month := 6; day := 1; hour := 9; minute := 5; second := 0 |},
        S w);
     get_json := fun url w =>
       if decide (url = paris) then
         (Ok (JObj [("latitude", JFloat 49.0);
                    ("current", JObj [("temperature_2m", JFloat 21.5)])]), S w)
       else
         (Ok (JObj [("error", JBool true);
                    ("reason", JStr "Latitude must be in range of -90 to 90")]), S w) |}.

End tools.

(** * Properties *)

(** ** Dictionaries *)

Section DictFacts.
Context {V : Type}.
Implicit Types (d : list (string * V)) (k : string) (v : V).

Lemma dict_get_None d k : dict_get k d = None <-> k ∉ d.*1.
Proof.
  induction d as [|[k' v'] d IH]; csimpl.
  - split; [intros _; apply not_elem_of_nil | done].
  - case_decide as Hk; subst.
    + split; [done | intros Hn; exfalso; apply Hn; left].
    + rewrite IH, not_elem_of_cons.
      split; [intros Hd; split; [congruence | exact Hd] | intros [_ Hd]; exact Hd].
Qed.

Lemma dict_get_Some_elem d k v : dict_get k d = Some v -> (k, v) ∈ d.
Proof.
  induction d as [|[k' v'] d IH]; csimpl; [done|].
  case_decide as Hk; subst.
  - intros [= ->]. apply elem_of_cons. by left.
  - intros Hd. apply elem_of_cons. right. auto.
Qed.

Lemma dict_set_fresh d k v : k ∉ d.*1 -> dict_set k v d = d ++ [(k, v)].
Proof.
  induction d as [|[k' v'] d IH]; csimpl; [done|].
  rewrite not_elem_of_cons. intros [Hne Hd].
  case_decide; [congruence|]. by rewrite IH.
Qed.

Lemma dict_set_keys d k v :
  (dict_set k v d).*1 = if decide (k ∈ d.*1) then d.*1 else d.*1 ++ [k].
Proof.
  induction d as [|[k' v'] d IH]; csimpl.
  - destruct (decide (k ∈ [])) as [H|H]; [by inversion H | done].
  - destruct (decide (k' = k)) as [->|Hk]; csimpl.
    + rewrite decide_True; [done | apply elem_of_cons; by left].
    + rewrite IH. destruct (decide (k ∈ d.*1)) as [Hin|Hin].
      * rewrite decide_True; [done | apply elem_of_cons; by right].
      * rewrite decide_False; [done|].
        rewrite elem_of_cons. intros [Heq|Hin']; [congruence | by apply Hin].
Qed.

Lemma dict_get_set_eq d k v : dict_get k (dict_set k v d) = Some v.
Proof.
  induction d as [|[k' v'] d IH]; csimpl.
  - by rewrite decide_True.
  - case_decide as Hk; subst; csimpl.
    + by rewrite decide_True.
    + by rewrite decide_False.
Qed.

Lemma dict_get_set_ne d k k' v :
  k ≠ k' -> dict_get k' (dict_set k v d) = dict_get k' d.
Proof.
  intros Hne. induction d as [|[k0 v0] d IH]; csimpl.
  - by rewrite decide_False.
  - case_decide as Hk; subst; csimpl.
    + by rewrite !decide_False.
    + case_decide; [done | apply IH].
Qed.

Lemma dict_set_NoDup d k v : NoDup d.*1 -> NoDup (dict_set k v d).*1.
Proof.
  intros Hd. rewrite dict_set_keys. case_decide as Hin; [done|].
  apply NoDup_app. split_and!; [done | | apply NoDup_singleton].
  intros x Hx Hx'. apply list_elem_of_singleton in Hx'. by subst.
Qed.

End DictFacts.

Lemma dict_get_fmap {A B : Type} (f : A -> B) (d : list (string * A)) k :
  dict_get k (prod_map id f <$> d) = f <$> dict_get k d.
Proof.
  induction d as [|[k' v'] d IH]; csimpl; [done|].
  case_decide; [done | apply IH].
Qed.

(** ** The registry *)

Section RegistryFacts.
Import utils.
Context {W : Type}.
Implicit Types (self : ToolRegistry W) (entry : descriptor W).

Lemma comprehension_from {A B : Type} (f : A -> B) (items : list (string * A))
    (acc : list (string * B)) :
  NoDup (acc.*1 ++ items.*1) ->
  foldl (fun acc kv => dict_set kv.1 (f kv.2) acc) acc items
  = acc ++ (prod_map id f <$> items).
Proof.
  revert acc. induction items as [|[k a] items IH]; intros acc Hnd; csimpl.
  - by rewrite app_nil_r.
  - csimpl in Hnd. apply NoDup_app in Hnd as (Hacc & Hdisj & Hitems).
    apply NoDup_cons in Hitems as [Hk Hitems].
    rewrite dict_set_fresh by (intros Hin; apply (Hdisj k Hin), elem_of_cons; by left).
    rewrite IH.
    + by rewrite <- app_assoc.
    + rewrite fmap_app. csimpl. rewrite <- app_assoc. csimpl.
      apply NoDup_app. split_and!; [done | | by apply NoDup_cons].
      intros x Hx. apply Hdisj, Hx.
Qed.

Lemma comprehension_NoDup {A B : Type} (f : A -> B) (items : list (string * A)) :
  NoDup items.*1 -> comprehension f items = prod_map id f <$> items.
Proof. intros Hnd. unfold comprehension. by rewrite comprehension_from. Qed.

Lemma wf_new : wf (@new W).
Proof. apply NoDup_nil_2. Qed.

Lemma wf_register self name function description parameters :
  wf self -> wf (register self name function description parameters).
Proof. unfold wf, names, register. csimpl. apply dict_set_NoDup. Qed.

(** Every registry built by registrations alone is well formed. *)
Lemma wf_registry (get_weather get_time_now retriever : pyobj W) :
  wf (main.registry get_weather get_time_now retriever).
Proof. unfold main.registry. do 3 apply wf_register. apply wf_new. Qed.

Lemma get_callable_registered self key entry :
  dict_get key (tools self) = Some entry ->
  get_callable self (JStr key) = Ok (function entry).
Proof. intros H. unfold get_callable. csimpl. by rewrite H. Qed.

Lemma get_callable_unregistered self key :
  key ∉ names self -> get_callable self (JStr key) = Ok (Data JNull).
Proof.
  intros H. apply dict_get_None in H. unfold get_callable. csimpl. by rewrite H.
Qed.

(** C6. In every state of the registry, the mapping returned by
    [get_description_for_prompt] has exactly the registered names as its
    keys, in registration order, and under each name exactly the stored
    description and parameter specification: a dictionary with these two
    keys and no other, so without the stored callable. *)
Theorem description_for_prompt_exact self :
  wf self ->
  (get_description_for_prompt self).*1 = names self
  /\ (forall key,
        dict_get key (get_description_for_prompt self)
        = (fun entry =>
             JObj [("description", description entry);
                   ("parameters", parameters entry)])
          <$> dict_get key (tools self))
  /\ (forall key, is_Some (dict_get key (get_description_for_prompt self))
                  <-> key ∈ names self).
Proof.
  intros Hwf. unfold get_description_for_prompt.
  rewrite comprehension_NoDup by exact Hwf.
  assert (Hlook : forall key,
    dict_get key (prod_map id prompt_view <$> tools self)
    = prompt_view <$> dict_get key (tools self)) by (intros; apply dict_get_fmap).
  split_and!.
  - unfold names. rewrite <- list_fmap_compose. by apply list_fmap_ext; intros ? [].
  - exact Hlook.
  - intros key. rewrite Hlook, fmap_is_Some.
    rewrite <- not_eq_None_Some, dict_get_None.
    split; [apply dec_stable | by intros ? ?].
Qed.

End RegistryFacts.

(** C6 at the registry of main.py, over the tools of the small world. *)
Lemma description_for_prompt_exact_witness :
  utils.wf Demo.registry
  /\ (utils.get_description_for_prompt Demo.registry).*1
     = ["get_weather"; "get_time_now"; "retriever"]
  /\ dict_get "get_time_now" (utils.get_description_for_prompt Demo.registry)
     = Some (JObj [("description",
                    JStr "Returns the current local time in YYYY-MM-DD HH:MM:SS format.");
                   ("parameters", JObj [])]).
Proof.
  pose proof (description_for_prompt_exact Demo.registry (wf_registry _ _ _))
    as (Hkeys & Hget & _).
  split; [apply wf_registry|]. split.
  - rewrite Hkeys. reflexivity.
  - rewrite Hget. reflexivity.
Defined.

(** ** The agent *)

Ltac unfold_m :=
  unfold bind, lift, ret, raise, try_except, print, emit, perform in *.

Section AgentFacts.
Import utils main plan.
Context {W : Type} (rt : Runtime W).
Implicit Types (self : @AgentExecutor W) (es : estate W)
  (fields : list (string * json)) (decision func_name : json)
  (tool_results : list (json * pyval)) (messages : list Message).

#[local] Abbreviation not_found func_name :=
  (Json (JStr ("Function '" +:+ str rt func_name +:+ "' not found."))).
#[local] Abbreviation error_of e := (Json (JStr ("Error: " +:+ exc_str e))).
#[local] Abbreviation traced decision := (AssistantMessage (json_dumps rt decision)).

Lemma invocations_app (l1 l2 : list (event W)) :
  invocations (l1 ++ l2) = invocations l1 ++ invocations l2.
Proof. apply omap_app. Qed.

Lemma requests_app (l1 l2 : list (event W)) :
  requests (l1 ++ l2) = requests l1 ++ requests l2.
Proof. apply omap_app. Qed.

(** *** One tool decision *)

Lemma execute_tool_not_callable self fields func_name v es :
  dict_get "function" fields = Some func_name ->
  get_callable (tool_registry self) func_name = Ok (Data v) ->
  _execute_tool rt self (JObj fields) es = (Ok (not_found func_name), es).
Proof.
  intros Hf Hc. unfold _execute_tool. unfold_m. simpl. by rewrite Hf, Hc.
Qed.

(** What [_execute_tool] does once the name has resolved to a callable:
    the call, then the three ways it can end. *)
Lemma execute_tool_callable self fields func_name f kwargs es :
  dict_get "function" fields = Some func_name ->
  get_callable (tool_registry self) func_name = Ok (Function f) ->
  default (JObj []) (dict_get "parameters" fields) = JObj kwargs ->
  _execute_tool rt self (JObj fields) es
  = match body f kwargs (world es) with
    | (Ok result, w) =>
        (Ok result,
         if verbose self then
           {| world := w;
              log := (log es ++ [Invoked f kwargs])
                     ++ [Printed (nl +:+ "Tool '" +:+ str rt func_name
                                  +:+ "' executed with args "
                                  +:+ str rt (JObj kwargs)
                                  +:+ ". Result: " +:+ str_of rt result)] |}
         else entered es f kwargs w)
    | (Raise e, w) =>
        (if is_Exception e then Ok (error_of e) else Raise e,
         entered es f kwargs w)
    end.
Proof.
  intros Hf Hc Ha. unfold _execute_tool, entered. unfold_m. simpl.
  rewrite Hf, Hc, Ha. unfold call_kwargs. unfold_m. simpl.
  destruct (body f kwargs (world es)) as [[result|e] w]; simpl.
  - by destruct (verbose self).
  - by destruct (is_Exception e).
Qed.

(** Arguments that are no mapping never reach the callable. *)
Lemma execute_tool_no_mapping self fields func_name f args es :
  dict_get "function" fields = Some func_name ->
  get_callable (tool_registry self) func_name = Ok (Function f) ->
  default (JObj []) (dict_get "parameters" fields) = args ->
  schema.is_object args = false ->
  _execute_tool rt self (JObj fields) es
  = (Ok (Json (JStr ("Error: " +:+ shown_as f
                     +:+ " argument after ** must be a mapping, not "
                     +:+ type_name args))), es).
Proof.
  intros Hf Hc Ha Hno. unfold _execute_tool. unfold_m. simpl.
  rewrite Hf, Hc, Ha. by destruct args.
Qed.

(** Whatever a tool decision leads to, the log gains exactly the call
    planned for it. *)
Lemma execute_tool_invocations self decision es :
  invocations (log (_execute_tool rt self decision es).2)
  = invocations (log es) ++ option_list (call_of self decision).
Proof.
  unfold _execute_tool, call_of. unfold_m.
  destruct (getitem decision "function") as [func_name|e] eqn:Hf; simpl;
    [|by rewrite app_nil_r].
  destruct decision as [| | | | | |fields]; try discriminate. simpl.
  destruct (get_callable (tool_registry self) func_name) as [[f|v]|e]; simpl;
    try by rewrite app_nil_r.
  unfold call_kwargs. unfold_m.
  destruct (default (JObj []) (dict_get "parameters" fields))
    as [| | | | | |kwargs] eqn:Ha; simpl; try by rewrite app_nil_r.
  destruct (body f kwargs (world es)) as [[result|e] w]; simpl.
  - destruct (verbose self); simpl; rewrite ?invocations_app; simpl;
      by rewrite ?app_nil_r.
  - destruct (is_Exception e); simpl; by rewrite invocations_app.
Qed.

(** *** One turn of the loop *)

Lemma is_tool_fields fields :
  is_tool (JObj fields) = eq_str (default JNull (dict_get "decision" fields)) "tool".
Proof. reflexivity. Qed.

Lemma handle_decision_no_tool self tool_results messages fields es :
  is_tool (JObj fields) = false ->
  handle_decision rt self (tool_results, messages) (JObj fields) es
  = (Ok (tool_results, messages ++ [traced (JObj fields)]), es).
Proof.
  rewrite is_tool_fields. intros Hk. unfold handle_decision. unfold_m. simpl.
  by rewrite Hk.
Qed.

Lemma handle_decision_tool self tool_results messages fields func_name es :
  is_tool (JObj fields) = true ->
  dict_get "function" fields = Some func_name ->
  handle_decision rt self (tool_results, messages) (JObj fields) es
  = match _execute_tool rt self (JObj fields) es with
    | (Ok tool_response, es') =>
        (Ok (tool_results ++ [(func_name, tool_response)],
             messages ++ [traced (JObj fields)]), es')
    | (Raise e, es') => (Raise e, es')
    end.
Proof.
  rewrite is_tool_fields. intros Hk Hf. unfold handle_decision. unfold_m. simpl.
  rewrite Hk. destruct (_execute_tool rt self (JObj fields) es) as [[r|e] es']; [|done].
  by rewrite Hf.
Qed.

Lemma handle_decision_no_function self tool_results messages fields es :
  is_tool (JObj fields) = true ->
  dict_get "function" fields = None ->
  handle_decision rt self (tool_results, messages) (JObj fields) es
  = (Raise (Exc KeyError "'function'"), es).
Proof.
  rewrite is_tool_fields. intros Hk Hf.
  unfold handle_decision, _execute_tool. unfold_m. simpl. by rewrite Hk, Hf.
Qed.

Lemma handle_decision_invocations self acc decision es :
  invocations (log (handle_decision rt self acc decision es).2)
  = invocations (log es)
    ++ (if is_tool decision then option_list (call_of self decision) else []).
Proof.
  destruct acc as [tool_results messages].
  destruct decision as [| | | | | |fields];
    try (by unfold handle_decision; unfold_m; simpl; rewrite app_nil_r).
  destruct (is_tool (JObj fields)) eqn:Hk.
  - destruct (dict_get "function" fields) as [func_name|] eqn:Hf.
    + rewrite (handle_decision_tool _ _ _ _ func_name) by done.
      rewrite <- execute_tool_invocations.
      by destruct (_execute_tool rt self (JObj fields) es) as [[r|e] es'].
    + rewrite handle_decision_no_function by done.
      unfold call_of. simpl. rewrite Hf. simpl. by rewrite app_nil_r.
  - rewrite handle_decision_no_tool by done. simpl. by rewrite app_nil_r.
Qed.

(** A turn that ends normally has traced its decision and, for a tool
    decision, collected one pair under the decision's function value. *)
Lemma handle_decision_ok self tool_results messages decision es acc' es' :
  handle_decision rt self (tool_results, messages) decision es = (Ok acc', es') ->
  acc'.2 = messages ++ [traced decision]
  /\ if is_tool decision
     then exists func_name tool_response,
            function_of decision = Some func_name
            /\ acc'.1 = tool_results ++ [(func_name, tool_response)]
     else acc'.1 = tool_results /\ es' = es.
Proof.
  destruct decision as [| | | | | |fields];
    try (by unfold handle_decision; unfold_m; simpl).
  destruct (is_tool (JObj fields)) eqn:Hk.
  - destruct (dict_get "function" fields) as [func_name|] eqn:Hf.
    + rewrite (handle_decision_tool _ _ _ _ func_name) by done.
      destruct (_execute_tool rt self (JObj fields) es) as [[r|e] es1]; [|done].
      intros [= <- <-]. split; [done|]. exists func_name, r.
      unfold function_of. simpl. by rewrite Hf.
    + by rewrite handle_decision_no_function.
  - rewrite handle_decision_no_tool by done. by intros [= <- <-].
Qed.

(** *** The loop *)

Lemma for_decisions_cons self decision (ds : list json) acc es :
  for_decisions rt self (decision :: ds) acc es
  = match handle_decision rt self acc decision es with
    | (Ok acc1, es1) => for_decisions rt self ds acc1 es1
    | (Raise e, es1) => (Raise e, es1)
    end.
Proof. reflexivity. Qed.

Lemma for_decisions_app self (ds1 ds2 : list json) acc es :
  for_decisions rt self (ds1 ++ ds2) acc es
  = bind (for_decisions rt self ds1 acc) (for_decisions rt self ds2) es.
Proof.
  revert acc es. induction ds1 as [|d ds1 IH]; intros acc es; [done|].
  rewrite <- app_comm_cons, !for_decisions_cons. unfold bind in *.
  rewrite for_decisions_cons.
  destruct (handle_decision rt self acc d es) as [[acc1|e] es1]; [|done].
  apply IH.
Qed.

(** A completed loop: one collected pair per tool decision and one traced
    message per decision, in the order of the decisions; the calls made
    are those planned for the tool decisions, in that order. *)
Lemma for_decisions_ok self (ds : list json) tool_results messages es acc' es' :
  for_decisions rt self ds (tool_results, messages) es = (Ok acc', es') ->
  (exists collected,
     acc'.1 = tool_results ++ collected
     /\ Some <$> collected.*1 = function_of <$> List.filter is_tool ds)
  /\ acc'.2 = messages ++ ((fun d => traced d) <$> ds)
  /\ invocations (log es')
     = invocations (log es) ++ omap (call_of self) (List.filter is_tool ds).
Proof.
  revert tool_results messages es.
  induction ds as [|d ds IH]; intros tool_results messages es.
  - unfold for_decisions, ret. intros [= <- <-]. simpl.
    split_and!; [|by rewrite app_nil_r..].
    exists []. by rewrite app_nil_r.
  - rewrite for_decisions_cons.
    pose proof (handle_decision_invocations self (tool_results, messages) d es) as Hinv.
    destruct (handle_decision rt self (tool_results, messages) d es)
      as [[[trs1 msgs1]|e] es1] eqn:Hd; [|done].
    apply handle_decision_ok in Hd as [Hmsgs Htrs]. simpl in Hmsgs, Htrs, Hinv.
    intros Hrest. apply IH in Hrest as ((collected & Hacc & Hnames) & Hm & Hi).
    rewrite Hm, Hi, Hinv, Hmsgs, Hacc. rewrite <- !app_assoc. csimpl.
    destruct (is_tool d); simpl.
    + destruct Htrs as (func_name & r & Hfn & ->). split_and!.
      * exists ((func_name, r) :: collected). rewrite <- app_assoc. csimpl.
        by rewrite Hfn, Hnames.
      * done.
      * by destruct (call_of self d).
    + destruct Htrs as [-> ->]. split_and!; [by exists collected | done..].
Qed.

(** *** The run *)

Lemma run_not_parsed self user_query es content w e :
  service_run rt (decision_request rt self user_query) (world es) = (Ok content, w) ->
  json_loads rt content = Raise e ->
  run rt self user_query es
  = (Raise e,
     {| world := w;
        log := log es ++ [Requested (decision_request rt self user_query)] |}).
Proof.
  intros Hs Hp. unfold run, OrchestrationService_run. unfold_m. simpl.
  fold (opening rt self user_query). fold (decision_request rt self user_query).
  by rewrite Hs, Hp.
Qed.

Lemma run_decided self user_query es decisions es' :
  decided rt self user_query es decisions es' ->
  run rt self user_query es
  = match for_decisions rt self decisions ([], opening rt self user_query) es' with
    | (Ok acc, es'') => _finalize_response rt self user_query acc.1 acc.2 es''
    | (Raise e, es'') => (Raise e, es'')
    end.
Proof.
  intros (content & w & doc & tool_calls & Hs & Hp & Ht & Hi & ->).
  unfold run, OrchestrationService_run, loop_start. unfold_m. simpl.
  fold (opening rt self user_query). fold (decision_request rt self user_query).
  rewrite Hs, Hp.
  destruct (verbose self); simpl; rewrite Ht, Hi; simpl;
    by rewrite <- ?app_assoc, ?app_nil_r.
Qed.

(** *** The synthesis *)

Lemma summary_lines_Forall2 tool_results lines :
  summary_lines rt tool_results = Ok lines <->
  Forall2 (fun entry line =>
             exists text, dumps rt entry.2 = Ok text
               /\ line = "- Tool `" +:+ str rt entry.1 +:+ "` returned: " +:+ text)
          tool_results lines.
Proof.
  revert lines. induction tool_results as [|[func_name r] trs IH]; intros lines; simpl.
  - split; [intros [= <-]; constructor | by inversion 1].
  - unfold summary_line. simpl. split.
    + destruct (dumps rt r) as [text|e] eqn:Hr; [|done].
      destruct (summary_lines rt trs) as [rest|e]; [|done].
      intros [= <-]. constructor; [by exists text | by apply IH].
    + inversion 1 as [|? line ? rest (text & Hr & ->) Hrest]; subst.
      apply IH in Hrest. simpl in Hr. by rewrite Hr, Hrest.
Qed.

Lemma finalize_response_request self original_query tool_results messages lines es :
  summary_lines rt tool_results = Ok lines ->
  _finalize_response rt self original_query tool_results messages es
  = OrchestrationService_run rt
      (synthesis_request self original_query messages (join nl lines)) es.
Proof.
  intros Hl. unfold _finalize_response, synthesis_request. unfold bind at 1.
  unfold lift. rewrite Hl. by rewrite <- !app_assoc.
Qed.

Lemma service_run_requests config es :
  requests (log (OrchestrationService_run rt config es).2)
  = requests (log es) ++ [config].
Proof.
  unfold OrchestrationService_run. unfold_m. simpl.
  destruct (service_run rt config (world es)) as [r w]. simpl.
  by rewrite requests_app.
Qed.

(** *** Requests and calls of the loop *)

Lemma execute_tool_requests self decision es :
  requests (log (_execute_tool rt self decision es).2) = requests (log es).
Proof.
  unfold _execute_tool. unfold_m.
  destruct (getitem decision "function") as [func_name|e]; [|done]. simpl.
  destruct (get_method decision "parameters" (JObj [])) as [args|e]; [|done]. simpl.
  destruct (get_callable (tool_registry self) func_name) as [[f|v]|e]; try done.
  unfold call_kwargs. unfold_m. destruct args as [| | | | | |kwargs]; try done. simpl.
  destruct (body f kwargs (world es)) as [[result|e] w]; simpl.
  - destruct (verbose self); simpl; rewrite ?requests_app; simpl;
      by rewrite ?app_nil_r.
  - destruct (is_Exception e); simpl; rewrite requests_app; simpl;
      by rewrite app_nil_r.
Qed.

Lemma handle_decision_requests self acc decision es :
  requests (log (handle_decision rt self acc decision es).2) = requests (log es).
Proof.
  destruct acc as [tool_results messages]. unfold handle_decision. unfold_m.
  destruct (get_method decision "decision" JNull) as [kind|e]; [|done]. simpl.
  destruct (eq_str kind "tool"); [|done].
  rewrite <- (execute_tool_requests self decision es).
  destruct (_execute_tool rt self decision es) as [[r|e] es1]; [|done]. simpl.
  by destruct (getitem decision "function").
Qed.

Lemma for_decisions_requests self (ds : list json) acc es :
  requests (log (for_decisions rt self ds acc es).2) = requests (log es).
Proof.
  revert acc es. induction ds as [|d ds IH]; intros acc es; [done|].
  rewrite for_decisions_cons.
  rewrite <- (handle_decision_requests self acc d es).
  destruct (handle_decision rt self acc d es) as [[acc1|e] es1]; [apply IH | done].
Qed.

(** However the loop ends, the calls it made are those planned for the tool
    decisions among the first few decisions, in their order. *)
Lemma for_decisions_invocations self (ds : list json) acc es :
  exists n,
    n <= length ds
    /\ invocations (log (for_decisions rt self ds acc es).2)
       = invocations (log es)
         ++ omap (call_of self) (List.filter is_tool (take n ds)).
Proof.
  revert acc es. induction ds as [|d ds IH]; intros acc es.
  - exists 0. split; [done|]. simpl. by rewrite app_nil_r.
  - rewrite for_decisions_cons.
    pose proof (handle_decision_invocations self acc d es) as Hinv.
    destruct (handle_decision rt self acc d es) as [[acc1|e] es1]; simpl in Hinv.
    + destruct (IH acc1 es1) as (n & Hn & Hi). exists (S n).
      split; [simpl; lia|]. rewrite Hi, Hinv, <- app_assoc. simpl.
      destruct (is_tool d); [|done]. simpl. by destruct (call_of self d).
    + exists 1. split; [simpl; lia|]. simpl. rewrite Hinv.
      destruct (is_tool d); [|done]. simpl. by destruct (call_of self d).
Qed.

(** The run around one turn of the loop that ends normally. *)
Lemma run_turn self user_query es0 es1 before decision rest acc es acc1 es2 :
  decided rt self user_query es0 (before ++ decision :: rest) es1 ->
  for_decisions rt self before ([], opening rt self user_query) es1 = (Ok acc, es) ->
  handle_decision rt self acc decision es = (Ok acc1, es2) ->
  run rt self user_query es0
  = match for_decisions rt self rest acc1 es2 with
    | (Ok acc', es') => _finalize_response rt self user_query acc'.1 acc'.2 es'
    | (Raise e, es') => (Raise e, es')
    end.
Proof.
  intros Hd Hb Ht. rewrite (run_decided _ _ _ _ _ Hd), for_decisions_app.
  unfold bind. by rewrite Hb, for_decisions_cons, Ht.
Qed.

Lemma eq_str_ne (v : json) (s : string) : v ≠ JStr s -> eq_str v s = false.
Proof.
  intros Hne. destruct v; try done. simpl. apply bool_decide_eq_false. congruence.
Qed.

(** *** The claims on the Execution Phase *)

(** C1. A tool decision whose function name is not registered yields the
    result ["Function '<name>' not found."]: [_execute_tool] returns it
    without raising and without touching the world, the loop collects it
    under the name and goes on with the remaining decisions, the pair is
    still among the results when the loop is over, and a run whose other
    decisions go through reaches the Synthesis Phase with it. *)
Theorem unregistered_function_reported self fields key tool_results messages rest es :
  is_tool (JObj fields) = true ->
  dict_get "function" fields = Some (JStr key) ->
  key ∉ names (tool_registry self) ->
  let result := Json (JStr ("Function '" +:+ key +:+ "' not found.")) in
  let acc1 := (tool_results ++ [(JStr key, result)],
               messages ++ [AssistantMessage (json_dumps rt (JObj fields))]) in
  _execute_tool rt self (JObj fields) es = (Ok result, es)
  /\ for_decisions rt self (JObj fields :: rest) (tool_results, messages) es
     = for_decisions rt self rest acc1 es
  /\ (forall acc' es',
        for_decisions rt self rest acc1 es = (Ok acc', es') ->
        (JStr key, result) ∈ acc'.1)
  /\ (forall user_query es0 es1 before acc' es',
        decided rt self user_query es0 (before ++ JObj fields :: rest) es1 ->
        for_decisions rt self before ([], opening rt self user_query) es1
        = (Ok (tool_results, messages), es) ->
        for_decisions rt self rest acc1 es = (Ok acc', es') ->
        run rt self user_query es0
        = _finalize_response rt self user_query acc'.1 acc'.2 es').
Proof.
  intros Hk Hf Hun result acc1.
  pose proof (get_callable_unregistered _ _ Hun) as Hc.
  pose proof (execute_tool_not_callable self fields _ _ es Hf Hc) as Hex.
  assert (Hturn : handle_decision rt self (tool_results, messages) (JObj fields) es
                  = (Ok acc1, es)).
  { rewrite (handle_decision_tool _ _ _ _ _ _ Hk Hf). by rewrite Hex. }
  split_and!.
  - exact Hex.
  - by rewrite for_decisions_cons, Hturn.
  - intros acc' es' Hrest.
    apply for_decisions_ok in Hrest as ((collected & -> & _) & _).
    simpl. rewrite !elem_of_app, list_elem_of_singleton. auto.
  - intros user_query es0 es1 before acc' es' Hd Hb Hrest.
    rewrite (run_turn _ _ _ _ _ _ _ _ _ _ _ Hd Hb Hturn). by rewrite Hrest.
Qed.

(** C8. The not-found branch is decided by callability: a tool decision
    whose function name is registered, but with a value that is not
    callable, yields the same ["Function '<name>' not found."], without
    raising, and the loop goes on. *)
Theorem uncallable_function_reported self fields key entry v
    tool_results messages rest es :
  is_tool (JObj fields) = true ->
  dict_get "function" fields = Some (JStr key) ->
  dict_get key (tools (tool_registry self)) = Some entry ->
  function entry = Data v ->
  let result := Json (JStr ("Function '" +:+ key +:+ "' not found.")) in
  is_callable (function entry) = false
  /\ key ∈ names (tool_registry self)
  /\ _execute_tool rt self (JObj fields) es = (Ok result, es)
  /\ for_decisions rt self (JObj fields :: rest) (tool_results, messages) es
     = for_decisions rt self rest
         (tool_results ++ [(JStr key, result)],
          messages ++ [AssistantMessage (json_dumps rt (JObj fields))]) es.
Proof.
  intros Hk Hf He Hv result.
  pose proof (get_callable_registered _ _ _ He) as Hc. rewrite Hv in Hc.
  pose proof (execute_tool_not_callable self fields _ _ es Hf Hc) as Hex.
  split_and!.
  - by rewrite Hv.
  - apply dec_stable. intros Hn. apply dict_get_None in Hn. congruence.
  - exact Hex.
  - rewrite for_decisions_cons, (handle_decision_tool _ _ _ _ _ _ Hk Hf).
    by rewrite Hex.
Qed.

(** C2, as the code has it. A tool decision whose callable raises an
    exception [e] that is an instance of [Exception], which is what the
    handler names, yields exactly ["Error: " + str(e)]: the exception is swallowed, the callable has
    been entered once and is not called again, and the loop goes on with
    the next decision, through to the Synthesis Phase. *)
Theorem tool_exception_reported self fields key entry f kwargs e w
    tool_results messages rest es :
  is_tool (JObj fields) = true ->
  dict_get "function" fields = Some (JStr key) ->
  dict_get key (tools (tool_registry self)) = Some entry ->
  function entry = Function f ->
  default (JObj []) (dict_get "parameters" fields) = JObj kwargs ->
  body f kwargs (world es) = (Raise e, w) ->
  is_Exception e = true ->
  let result := Json (JStr ("Error: " +:+ exc_str e)) in
  let es1 := entered es f kwargs w in
  let acc1 := (tool_results ++ [(JStr key, result)],
               messages ++ [AssistantMessage (json_dumps rt (JObj fields))]) in
  _execute_tool rt self (JObj fields) es = (Ok result, es1)
  /\ invocations (log es1) = invocations (log es) ++ [(f, kwargs)]
  /\ for_decisions rt self (JObj fields :: rest) (tool_results, messages) es
     = for_decisions rt self rest acc1 es1
  /\ (forall user_query es0 es' before acc' es'',
        decided rt self user_query es0 (before ++ JObj fields :: rest) es' ->
        for_decisions rt self before ([], opening rt self user_query) es'
        = (Ok (tool_results, messages), es) ->
        for_decisions rt self rest acc1 es1 = (Ok acc', es'') ->
        run rt self user_query es0
        = _finalize_response rt self user_query acc'.1 acc'.2 es'').
Proof.
  intros Hk Hf He Hfn Ha Hb Hexc result es1 acc1.
  pose proof (get_callable_registered _ _ _ He) as Hc. rewrite Hfn in Hc.
  pose proof (execute_tool_callable self fields _ _ _ es Hf Hc Ha) as Hex.
  rewrite Hb, Hexc in Hex.
  assert (Hturn : handle_decision rt self (tool_results, messages) (JObj fields) es
                  = (Ok acc1, es1)).
  { rewrite (handle_decision_tool _ _ _ _ _ _ Hk Hf). by rewrite Hex. }
  split_and!.
  - exact Hex.
  - unfold es1, entered. simpl. by rewrite invocations_app.
  - by rewrite for_decisions_cons, Hturn.
  - intros user_query es0 es' before acc' es'' Hd Hbf Hrest.
    rewrite (run_turn _ _ _ _ _ _ _ _ _ _ _ Hd Hbf Hturn). by rewrite Hrest.
Qed.

(** C5. A decision whose [decision] is not ["tool"] invokes nothing: the
    world and the log are as before, the list of tool results is as
    before, and exactly one assistant message, the serialized decision,
    is appended to the conversation; the loop goes on from there. *)
Theorem no_tool_decision_traced self fields tool_results messages rest es :
  default JNull (dict_get "decision" fields) ≠ JStr "tool" ->
  handle_decision rt self (tool_results, messages) (JObj fields) es
  = (Ok (tool_results,
         messages ++ [AssistantMessage (json_dumps rt (JObj fields))]), es)
  /\ for_decisions rt self (JObj fields :: rest) (tool_results, messages) es
     = for_decisions rt self rest
         (tool_results,
          messages ++ [AssistantMessage (json_dumps rt (JObj fields))]) es.
Proof.
  intros Hne. apply eq_str_ne in Hne. rewrite <- is_tool_fields in Hne.
  pose proof (handle_decision_no_tool self tool_results messages fields es Hne) as H.
  split; [exact H | by rewrite for_decisions_cons, H].
Qed.

(** C4. The loop takes the decisions in the order of the array, one after
    the other, each in the world the previous one left. However it ends,
    the calls it made are those of the tool decisions among the first
    decisions, in array order; when it ends normally, the collected pairs
    are those of the tool decisions, one each and in array order, every
    decision has been traced in array order, and the calls made are those
    of all the tool decisions, in array order. *)
Theorem decisions_executed_in_order self (decisions : list json)
    tool_results messages es :
  (exists n,
     n <= length decisions
     /\ invocations
          (log (for_decisions rt self decisions (tool_results, messages) es).2)
        = invocations (log es)
          ++ omap (call_of self) (List.filter is_tool (take n decisions)))
  /\ (forall acc' es',
        for_decisions rt self decisions (tool_results, messages) es = (Ok acc', es') ->
        (exists collected,
           acc'.1 = tool_results ++ collected
           /\ Some <$> collected.*1 = function_of <$> List.filter is_tool decisions)
        /\ acc'.2 = messages
                    ++ ((fun d => AssistantMessage (json_dumps rt d)) <$> decisions)
        /\ invocations (log es')
           = invocations (log es)
             ++ omap (call_of self) (List.filter is_tool decisions)).
Proof.
  split; [apply for_decisions_invocations|].
  intros acc' es'. apply for_decisions_ok.
Qed.

(** C7. When every collected result can be serialized, the request of the
    Synthesis Phase carries, after the conversation so far and the
    synthesis instruction, the original user query and then, as user
    content, the summary: one line per collected pair, in the order of
    the pairs, made of the tool name and the serialized result, the lines
    joined by line feeds. With no collected pair the summary is empty. *)
Theorem synthesis_input_summary self original_query tool_results messages lines es :
  summary_lines rt tool_results = Ok lines ->
  let config := synthesis_request self original_query messages (join nl lines) in
  Forall2 (fun entry line =>
             exists text, dumps rt entry.2 = Ok text
               /\ line = "- Tool `" +:+ str rt entry.1 +:+ "` returned: " +:+ text)
          tool_results lines
  /\ template_messages (config_template config)
     = messages
       ++ [SystemMessage synthesis_instruction;
           UserMessage ("User question: " +:+ original_query);
           UserMessage ("Tool Results:" +:+ nl +:+ join nl lines)]
  /\ _finalize_response rt self original_query tool_results messages es
     = OrchestrationService_run rt config es
  /\ requests (log (_finalize_response rt self original_query
                      tool_results messages es).2)
     = requests (log es) ++ [config]
  /\ (tool_results = [] -> join nl lines = EmptyString).
Proof.
  intros Hl config. split_and!.
  - by apply summary_lines_Forall2.
  - done.
  - by apply finalize_response_request.
  - rewrite (finalize_response_request _ _ _ _ _ _ Hl). apply service_run_requests.
  - intros ->. simpl in Hl. by injection Hl as <-.
Qed.

(** Results that are JSON values can always be summarized. *)
Lemma summary_lines_json (collected : list (json * json)) :
  summary_lines rt ((fun p => (p.1, Json p.2)) <$> collected)
  = Ok ((fun p => "- Tool `" +:+ str rt p.1 +:+ "` returned: "
                  +:+ json_dumps rt p.2) <$> collected).
Proof.
  induction collected as [|[func_name v] collected IH]; [done|].
  csimpl. unfold summary_line. simpl. by rewrite IH.
Qed.

Lemma loop_start_requests self user_query es w decisions_json :
  requests (log (loop_start rt self user_query es w decisions_json))
  = requests (log es) ++ [decision_request rt self user_query].
Proof.
  unfold loop_start. simpl. rewrite !requests_app. simpl.
  destruct (verbose self); simpl; by rewrite app_nil_r.
Qed.

(** C9. A tool decision without a function key is not turned into an
    inline result: looking the key up raises [KeyError('function')]
    outside the handler of [_execute_tool], the loop stops there, and the
    run aborts before any synthesis request. *)
Theorem missing_function_key_aborts self fields tool_results messages rest es :
  is_tool (JObj fields) = true ->
  dict_get "function" fields = None ->
  _execute_tool rt self (JObj fields) es = (Raise (Exc KeyError "'function'"), es)
  /\ for_decisions rt self (JObj fields :: rest) (tool_results, messages) es
     = (Raise (Exc KeyError "'function'"), es)
  /\ (forall before acc0 es0,
        exists e es',
          for_decisions rt self (before ++ JObj fields :: rest) acc0 es0
          = (Raise e, es'))
  /\ (forall user_query es0 es1 before,
        decided rt self user_query es0 (before ++ JObj fields :: rest) es1 ->
        exists e es',
          run rt self user_query es0 = (Raise e, es')
          /\ requests (log es')
             = requests (log es0) ++ [decision_request rt self user_query]
          /\ (for_decisions rt self before ([], opening rt self user_query) es1
              = (Ok (tool_results, messages), es) ->
              e = Exc KeyError "'function'" /\ es' = es)).
Proof.
  intros Hk Hf.
  assert (Hturn : forall trs msgs es2,
    handle_decision rt self (trs, msgs) (JObj fields) es2
    = (Raise (Exc KeyError "'function'"), es2)).
  { intros. by apply handle_decision_no_function. }
  assert (Hstop : forall before acc0 es0,
    (exists e es', for_decisions rt self (before ++ JObj fields :: rest) acc0 es0
                   = (Raise e, es'))).
  { intros before acc0 es0. rewrite for_decisions_app. unfold bind.
    destruct (for_decisions rt self before acc0 es0) as [[[trs msgs]|e] es2]; [|eauto].
    rewrite for_decisions_cons, Hturn. eauto. }
  split_and!.
  - unfold _execute_tool. unfold_m. simpl. by rewrite Hf.
  - by rewrite for_decisions_cons, Hturn.
  - exact Hstop.
  - intros user_query es0 es1 before Hd.
    rewrite (run_decided _ _ _ _ _ Hd).
    pose proof (for_decisions_requests self (before ++ JObj fields :: rest)
                  ([], opening rt self user_query) es1) as Hreq.
    destruct (Hstop before ([], opening rt self user_query) es1) as (e & es' & Hl).
    rewrite Hl in Hreq |- *. exists e, es'. split_and!.
    + done.
    + simpl in Hreq. rewrite Hreq.
      destruct Hd as (? & w & doc & ? & _ & _ & _ & _ & ->).
      apply loop_start_requests.
    + intros Hb. rewrite for_decisions_app in Hl. unfold bind in Hl.
      rewrite Hb, for_decisions_cons, Hturn in Hl. by injection Hl as <- <-.
Qed.

(** C10. A tool decision with a registered callable and no parameters key
    does not fail in the Execution Phase: the arguments default to the
    empty mapping, so the callable is entered once with no keyword
    argument, exactly as for the same decision with [parameters] set to
    the empty object, and what comes back is what the callable did. *)
Theorem missing_parameters_default self fields key entry f es :
  dict_get "function" fields = Some (JStr key) ->
  dict_get key (tools (tool_registry self)) = Some entry ->
  function entry = Function f ->
  dict_get "parameters" fields = None ->
  _execute_tool rt self (JObj fields) es
  = _execute_tool rt self (JObj (dict_set "parameters" (JObj []) fields)) es
  /\ invocations (log (_execute_tool rt self (JObj fields) es).2)
     = invocations (log es) ++ [(f, [])]
  /\ _execute_tool rt self (JObj fields) es
     = match body f [] (world es) with
       | (Ok result, w) =>
           (Ok result,
            if verbose self then
              {| world := w;
                 log := (log es ++ [Invoked f []])
                        ++ [Printed (nl +:+ "Tool '" +:+ key
                                     +:+ "' executed with args "
                                     +:+ repr rt (JObj [])
                                     +:+ ". Result: " +:+ str_of rt result)] |}
            else entered es f [] w)
       | (Raise e, w) =>
           (if is_Exception e
            then Ok (Json (JStr ("Error: " +:+ exc_str e)))
            else Raise e,
            entered es f [] w)
       end.
Proof.
  intros Hf He Hfn Hp.
  pose proof (get_callable_registered _ _ _ He) as Hc. rewrite Hfn in Hc.
  assert (Ha : default (JObj []) (dict_get "parameters" fields) = JObj [])
    by (by rewrite Hp).
  pose proof (execute_tool_callable self fields _ _ _ es Hf Hc Ha) as Hex.
  split_and!.
  - rewrite Hex. symmetry. apply execute_tool_callable with (func_name := JStr key).
    + by rewrite dict_get_set_ne.
    + exact Hc.
    + by rewrite dict_get_set_eq.
  - rewrite execute_tool_invocations. unfold call_of. simpl.
    by rewrite Hf, Hc, Hp.
  - exact Hex.
Qed.

(** C3, as the code has it. When the answer to the decision request is not
    valid JSON, parsing raises and the run aborts with that error: the
    service has been asked once, no tool has been called, nothing is
    repaired or tried again. The parsed answer is not checked against the
    schema: an object without [tool_calls] counts as an empty array, and
    the run goes on to the Synthesis Phase with no tool result. *)
Theorem invalid_json_aborts_schema_unchecked self user_query es content w :
  service_run rt (decision_request rt self user_query) (world es) = (Ok content, w) ->
  (forall e,
     json_loads rt content = Raise e ->
     exists es',
       run rt self user_query es = (Raise e, es')
       /\ world es' = w
       /\ requests (log es')
          = requests (log es) ++ [decision_request rt self user_query]
       /\ invocations (log es') = invocations (log es))
  /\ (forall fields,
        json_loads rt content = Ok (JObj fields) ->
        dict_get "tool_calls" fields = None ->
        run rt self user_query es
        = _finalize_response rt self user_query [] (opening rt self user_query)
            (loop_start rt self user_query es w (JObj fields))).
Proof.
  intros Hs. split.
  - intros e Hp. eexists. split; [by apply (run_not_parsed _ _ _ content)|]. simpl.
    rewrite requests_app, invocations_app. simpl. by rewrite app_nil_r.
  - intros fields Hp Hn.
    rewrite (run_decided self user_query es []
               (loop_start rt self user_query es w (JObj fields))); [done|].
    exists content, w, (JObj fields), (JArr []). split_and!; try done.
    simpl. by rewrite Hn.
Qed.

End AgentFacts.

(** ** The claims at work in the small world *)

Section InTheSmallWorld.
Import utils main plan.

Lemma demo_decided (r : ToolRegistry nat) (user_query : string)
    (decisions : list json) :
  decided (Demo.rt "R" (Ok (Demo.tool_calls decisions))) (Demo.agent r) user_query
    Demo.start decisions
    (Demo.loop_begin r user_query (Demo.tool_calls decisions)).
Proof.
  exists "R", 1, (Demo.tool_calls decisions), (JArr decisions).
  split_and!; reflexivity.
Qed.

End InTheSmallWorld.

(** C1 at work: the model asks for a tool nobody registered; the run goes
    on to the synthesis with the not-found entry. *)
Lemma unregistered_function_reported_witness :
  let d := Demo.decision "tool" "lookup_stock" (JObj []) in
  let doc := Demo.tool_calls [d] in
  let rt := Demo.rt "R" (Ok doc) in
  let self := Demo.agent Demo.registry in
  let es := Demo.loop_begin Demo.registry "What is in stock?" doc in
  let result := Json (JStr "Function 'lookup_stock' not found.") in
  main._execute_tool rt self d es = (Ok result, es)
  /\ main.run rt self "What is in stock?" Demo.start
     = main._finalize_response rt self "What is in stock?"
         [(JStr "lookup_stock", result)]
         (plan.opening rt self "What is in stock?" ++ [AssistantMessage (Demo.show d)])
         es.
Proof.
  intros d doc rt self es result.
  destruct (unregistered_function_reported rt self
              (Demo.decision_fields "tool" "lookup_stock" (JObj []))
              "lookup_stock" [] (plan.opening rt self "What is in stock?") [] es)
    as (Hex & _ & _ & Hrun).
  - reflexivity.
  - reflexivity.
  - apply dict_get_None. reflexivity.
  - split; [exact Hex|].
    apply (Hrun "What is in stock?" Demo.start es []
             ([(JStr "lookup_stock", result)],
              plan.opening rt self "What is in stock?"
              ++ [AssistantMessage (Demo.show d)]) es).
    + apply (demo_decided Demo.registry "What is in stock?" [d]).
    + reflexivity.
    + reflexivity.
Defined.

(** C8 at work: the name is registered, but what is stored is a note. *)
Lemma uncallable_function_reported_witness :
  let d := Demo.decision "tool" "note" (JObj []) in
  let rt := Demo.rt "R" (Ok (Demo.tool_calls [d])) in
  main._execute_tool rt (Demo.agent Demo.registry_with_note) d Demo.start
  = (Ok (Json (JStr "Function 'note' not found.")), Demo.start)
  /\ "note" ∈ utils.names Demo.registry_with_note.
Proof.
  intros d rt.
  destruct (uncallable_function_reported rt (Demo.agent Demo.registry_with_note)
              (Demo.decision_fields "tool" "note" (JObj [])) "note"
              {| utils.function := utils.Data (JStr "not a function");
                 utils.description := JStr "A note.";
                 utils.parameters := JObj [] |}
              (JStr "not a function") [] [] [] Demo.start)
    as (_ & Hin & Hex & _).
  - reflexivity.
  - reflexivity.
  - reflexivity.
  - reflexivity.
  - split; [exact Hex | exact Hin].
Defined.

(** C2 at work: the retriever cannot reach its store. *)
Lemma tool_exception_reported_witness :
  let kwargs := [("question", JStr "What is SAP AI Core?")] in
  let d := Demo.decision "tool" "retriever" (JObj kwargs) in
  let rt := Demo.rt "R" (Ok (Demo.tool_calls [d])) in
  let es' := entered Demo.start Demo.retriever kwargs 1 in
  main._execute_tool rt (Demo.agent Demo.registry) d Demo.start
  = (Ok (Json (JStr "Error: document store unreachable")), es')
  /\ invocations (log es') = [(Demo.retriever, kwargs)].
Proof.
  intros kwargs d rt es'.
  destruct (tool_exception_reported rt (Demo.agent Demo.registry)
              (Demo.decision_fields "tool" "retriever" (JObj kwargs)) "retriever"
              {| utils.function := utils.Function Demo.retriever;
                 utils.description := JStr "Retrieves an answer using RAG from documents stored in SAP HANA Cloud for SAP Business Data Cloud and SAP Generative AI Hub in SAP AI Core content";
                 utils.parameters := JObj [("question", JStr "string - The question you want to ask based on the document context.")] |}
              Demo.retriever kwargs
              (Exc (Other "ConnectionError" true) "document store unreachable") 1
              [] [] [] Demo.start)
    as (Hex & Hinv & _).
  - reflexivity.
  - reflexivity.
  - reflexivity.
  - reflexivity.
  - reflexivity.
  - reflexivity.
  - reflexivity.
  - split; [exact Hex | exact Hinv].
Defined.

(** C5 at work: the model sees no use for any tool. *)
Lemma no_tool_decision_traced_witness :
  let d := Demo.decision "no_tool" EmptyString (JObj []) in
  let rt := Demo.rt "R" (Ok (Demo.tool_calls [d])) in
  main.handle_decision rt (Demo.agent Demo.registry) ([], []) d Demo.start
  = (Ok ([], [AssistantMessage (Demo.show d)]), Demo.start).
Proof.
  intros d rt.
  destruct (no_tool_decision_traced rt (Demo.agent Demo.registry)
              (Demo.decision_fields "no_tool" EmptyString (JObj [])) [] [] []
              Demo.start) as [Hturn _].
  - simpl. discriminate.
  - exact Hturn.
Defined.

(** C4 at work: four decisions, three of them for tools, one of these for a
    tool nobody registered. Two calls are made, in the order of the array,
    the second in the world the first one left; three pairs are collected
    and four messages traced, in the order of the array. *)
Lemma decisions_executed_in_order_witness :
  let d1 := Demo.decision "tool" "get_time_now" (JObj []) in
  let d2 := Demo.decision "no_tool" EmptyString (JObj []) in
  let d3 := Demo.decision "tool" "lookup_stock" (JObj []) in
  let d4 := Demo.decision "tool" "get_weather"
              (JObj [("latitude", JFloat 48.8566); ("longitude", JFloat 2.3522)]) in
  let ds := [d1; d2; d3; d4] in
  let rt := Demo.rt "R" (Ok (Demo.tool_calls ds)) in
  let self := Demo.agent Demo.registry in
  exists acc' es',
    main.for_decisions rt self ds ([], []) Demo.start = (Ok acc', es')
    /\ acc'.1.*1 = [JStr "get_time_now"; JStr "lookup_stock"; JStr "get_weather"]
    /\ acc'.2 = AssistantMessage ∘ Demo.show <$> ds
    /\ invocations (log es')
       = [(Demo.get_time_now, []);
          (Demo.get_weather,
           [("latitude", JFloat 48.8566); ("longitude", JFloat 2.3522)])]
    /\ world es' = 2.
Proof.
  intros d1 d2 d3 d4 ds rt self.
  destruct (main.for_decisions rt self ds ([], []) Demo.start) as [r es'] eqn:Hrun.
  vm_compute in Hrun. injection Hrun as <- <-.
  eexists _, _. split; [reflexivity|].
  destruct (decisions_executed_in_order rt self ds [] [] Demo.start) as [_ Hok].
  destruct (Hok _ _ eq_refl) as ((collected & Hacc & Hnames) & Hmsgs & Hinv).
  split_and!; [reflexivity | exact Hmsgs | exact Hinv | reflexivity].
Defined.

(** C7 at work: the clock has answered, an unknown tool has not. *)
Lemma synthesis_input_summary_witness :
  let rt := Demo.rt "R" (Ok (JObj [])) in
  let self := Demo.agent Demo.registry in
  let tool_results :=
    [(JStr "get_time_now", Json (JObj [("time", JStr "2025-06-01 12:00:00")]));
     (JStr "lookup_stock", Json (JStr "Function 'lookup_stock' not found."))] in
  let lines :=
    ["- Tool `get_time_now` returned: {" +:+ dq +:+ "time" +:+ dq +:+ ": "
       +:+ dq +:+ "2025-06-01 12:00:00" +:+ dq +:+ "}";
     "- Tool `lookup_stock` returned: " +:+ dq
       +:+ "Function 'lookup_stock' not found." +:+ dq] in
  main.summary_lines rt tool_results = Ok lines
  /\ requests (log (main._finalize_response rt self "What time is it?"
                      tool_results [] Demo.start).2)
     = [plan.synthesis_request self "What time is it?" [] (join nl lines)].
Proof.
  intros rt self tool_results lines.
  assert (Hl : main.summary_lines rt tool_results = Ok lines) by reflexivity.
  destruct (synthesis_input_summary rt self "What time is it?" tool_results []
              lines Demo.start Hl) as (_ & _ & _ & Hreq & _).
  split; [exact Hl | exact Hreq].
Defined.

(** C9 at work: a tool decision that names no function stops the run. *)
Lemma missing_function_key_aborts_witness :
  let fields := [("decision", JStr "tool"); ("reason", JStr "because");
                 ("parameters", JObj [])] in
  let later := Demo.decision "tool" "get_time_now" (JObj []) in
  let rt := Demo.rt "R" (Ok (Demo.tool_calls [JObj fields; later])) in
  main.for_decisions rt (Demo.agent Demo.registry) [JObj fields; later] ([], [])
    Demo.start
  = (Raise (Exc KeyError "'function'"), Demo.start).
Proof.
  intros fields later rt.
  destruct (missing_function_key_aborts rt (Demo.agent Demo.registry) fields
              [] [] [later] Demo.start) as (_ & Hloop & _).
  - reflexivity.
  - reflexivity.
  - exact Hloop.
Defined.

(** C10 at work: the clock is asked for without a parameters key. *)
Lemma missing_parameters_default_witness :
  let fields := [("decision", JStr "tool"); ("reason", JStr "because");
                 ("function", JStr "get_time_now")] in
  let rt := Demo.rt "R" (Ok (Demo.tool_calls [JObj fields])) in
  let self := Demo.agent Demo.registry in
  main._execute_tool rt self (JObj fields) Demo.start
  = main._execute_tool rt self (JObj (fields ++ [("parameters", JObj [])])) Demo.start
  /\ invocations (log (main._execute_tool rt self (JObj fields) Demo.start).2)
     = [(Demo.get_time_now, [])]
  /\ (main._execute_tool rt self (JObj fields) Demo.start).1
     = Ok (Json (JObj [("time", JStr "2025-06-01 12:00:00")])).
Proof.
  intros fields rt self.
  destruct (missing_parameters_default rt self fields "get_time_now"
              {| utils.function := utils.Function Demo.get_time_now;
                 utils.description :=
                   JStr "Returns the current local time in YYYY-MM-DD HH:MM:SS format.";
                 utils.parameters := JObj [] |}
              Demo.get_time_now Demo.start) as (Hsame & Hinv & Hex).
  - reflexivity.
  - reflexivity.
  - reflexivity.
  - reflexivity.
  - split_and!; [exact Hsame | exact Hinv | by rewrite Hex].
Defined.

(** C3 at work: the service answers with something that is no JSON. *)
Lemma invalid_json_aborts_schema_unchecked_witness :
  let e := Exc JSONDecodeError "Expecting value: line 1 column 1 (char 0)" in
  let rt := Demo.rt "Sorry, I cannot help with that." (Raise e) in
  let self := Demo.agent Demo.registry in
  exists es',
    main.run rt self "What time is it?" Demo.start = (Raise e, es')
    /\ world es' = 1
    /\ requests (log es') = [plan.decision_request rt self "What time is it?"]
    /\ invocations (log es') = [].
Proof.
  intros e rt self.
  destruct (invalid_json_aborts_schema_unchecked rt self "What time is it?"
              Demo.start "Sorry, I cannot help with that." 1) as [Hbad _].
  - reflexivity.
  - apply (Hbad e). reflexivity.
Defined.

(** C3 as the specification words it fails: an answer that parses to the
    empty object has no [tool_calls], so it does not conform to the schema,
    and yet the run ends normally with the answer of the synthesis. *)
Lemma malformed_answer_not_fatal :
  schema.conforms (JObj []) = false
  /\ (main.run (Demo.rt "{}" (Ok (JObj []))) (Demo.agent Demo.registry)
        "Hello" Demo.start).1 = Ok "final answer"
  /\ ~ plan.malformed_is_fatal (Demo.rt "{}" (Ok (JObj [])))
         (Demo.agent Demo.registry) "Hello" Demo.start.
Proof.
  assert (Hrun : (main.run (Demo.rt "{}" (Ok (JObj []))) (Demo.agent Demo.registry)
                    "Hello" Demo.start).1 = Ok "final answer") by reflexivity.
  split_and!; [reflexivity | exact Hrun |].
  intros Hfatal.
  destruct (Hfatal "{}" 1 (JObj []) eq_refl eq_refl eq_refl) as (e & es' & Habort).
  rewrite Habort in Hrun. discriminate.
Qed.

(** ** Two complete runs in the small world *)

(** The model asks for the clock: it is called once, with no argument, and
    its value is the summary handed to the synthesis. *)
Example run_asks_the_clock :
  let doc := Demo.tool_calls [Demo.decision "tool" "get_time_now" (JObj [])] in
  let out := main.run (Demo.rt "R" (Ok doc)) (Demo.agent Demo.registry)
               "What time is it?" Demo.start in
  out.1 = Ok "final answer"
  /\ invocations (log out.2) = [(Demo.get_time_now, [])]
  /\ length (requests (log out.2)) = 2
  /\ (last (requests (log out.2))
        ≫= fun config => last (template_messages (config_template config)))
     = Some (UserMessage
               ("Tool Results:" +:+ nl +:+ "- Tool `get_time_now` returned: {"
                +:+ dq +:+ "time" +:+ dq +:+ ": " +:+ dq +:+ "2025-06-01 12:00:00"
                +:+ dq +:+ "}")).
Proof. split_and!; reflexivity. Qed.

(** The model sees no use for any tool: nothing is called and the summary
    handed to the synthesis is empty. *)
Example run_without_tools :
  let doc := Demo.tool_calls [Demo.decision "no_tool" EmptyString (JObj [])] in
  let out := main.run (Demo.rt "R" (Ok doc)) (Demo.agent Demo.registry)
               "Tell me a joke." Demo.start in
  out.1 = Ok "final answer"
  /\ invocations (log out.2) = []
  /\ (last (requests (log out.2))
        ≫= fun config => last (template_messages (config_template config)))
     = Some (UserMessage ("Tool Results:" +:+ nl)).
Proof. split_and!; reflexivity. Qed.

(** * Further properties of utils.py *)

Section RegistryMore.
Import utils observe.
Context {W : Type}.
Implicit Types (self : ToolRegistry W) (entry : descriptor W) (name : string).

Lemma dict_set_set {V : Type} (d : list (string * V)) k (v1 v2 : V) :
  dict_set k v2 (dict_set k v1 d) = dict_set k v2 d.
Proof.
  induction d as [|[k' v'] d IH]; csimpl.
  - by rewrite decide_True.
  - destruct (decide (k' = k)) as [->|Hne]; csimpl.
    + by rewrite decide_True.
    + rewrite decide_False by done. by rewrite IH.
Qed.

Lemma dict_get_app {V : Type} (d1 d2 : list (string * V)) k :
  dict_get k (d1 ++ d2)
  = match dict_get k d1 with Some v => Some v | None => dict_get k d2 end.
Proof.
  induction d1 as [|[k' v'] d1 IH]; csimpl; [done|].
  destruct (decide (k' = k)); [done | apply IH].
Qed.

Lemma dict_get_is_Some {V : Type} (d : list (string * V)) k :
  is_Some (dict_get k d) <-> k ∈ d.*1.
Proof.
  rewrite <- not_eq_None_Some, dict_get_None.
  split; [apply dec_stable | by intros ? ?].
Qed.

Lemma descriptor_eta entry :
  {| function := function entry;
     description := description entry;
     parameters := parameters entry |} = entry.
Proof. by destruct entry. Qed.

(** What a history of registrations leaves under a name, on top of a
    registry: the last registration under that name, if there is one. *)
Lemma registered_from_lookup (regs : list (string * descriptor W)) self name :
  dict_get name
    (tools (foldl (fun r reg => register r reg.1 (function reg.2) (description reg.2)
                                  (parameters reg.2)) self regs))
  = match dict_get name (reverse regs) with
    | Some entry => Some entry
    | None => dict_get name (tools self)
    end.
Proof.
  revert self. induction regs as [|[key entry] regs IH]; intros self; [done|].
  csimpl. rewrite IH, reverse_cons, dict_get_app.
  destruct (dict_get name (reverse regs)) as [found|]; [done|].
  csimpl. rewrite descriptor_eta.
  destruct (decide (key = name)) as [->|Hne].
  - by rewrite dict_get_set_eq.
  - by rewrite dict_get_set_ne.
Qed.

Lemma registered_from_wf (regs : list (string * descriptor W)) self :
  wf self ->
  wf (foldl (fun r reg => register r reg.1 (function reg.2) (description reg.2)
                            (parameters reg.2)) self regs).
Proof.
  revert self. induction regs as [|[key entry] regs IH]; intros self Hwf; [done|].
  csimpl. apply IH. by apply wf_register.
Qed.

(** X1. Registering and looking up: right after [register], [get_callable]
    returns the function just stored under the name, and answers for every
    other name as it did before. *)
Theorem register_then_get_callable self name (f : pyobj W) (d p : json) :
  get_callable (register self name f d p) (JStr name) = Ok f
  /\ forall other,
       other <> JStr name ->
       get_callable (register self name f d p) other = get_callable self other.
Proof.
  split.
  - unfold get_callable, register. csimpl. by rewrite dict_get_set_eq.
  - intros other Hne. unfold get_callable, register. csimpl.
    destruct other as [| | | |key| |]; try done.
    rewrite dict_get_set_ne; [done | congruence].
Qed.

(** X2. Registering under a name that is already there keeps the order of
    the names (the entry is replaced where it stands); a new name goes
    last. Either way no other name appears or disappears. *)
Theorem register_names self name (f : pyobj W) (d p : json) :
  names (register self name f d p)
  = if decide (name ∈ names self) then names self else names self ++ [name].
Proof. unfold names, register. csimpl. apply dict_set_keys. Qed.

(** X3. Whatever the history of registrations, the registry has pairwise
    different names, a name is known exactly when something was registered
    under it, and what is found under it is the last such registration. *)
Theorem registrations_last_write_wins (regs : list (string * descriptor W)) name :
  wf (registered regs)
  /\ (name ∈ names (registered regs) <-> name ∈ regs.*1)
  /\ dict_get name (tools (registered regs)) = dict_get name (reverse regs)
  /\ get_callable (registered regs) (JStr name)
     = Ok (match dict_get name (reverse regs) with
           | Some entry => function entry
           | None => Data JNull
           end).
Proof.
  assert (Hget : dict_get name (tools (registered regs)) = dict_get name (reverse regs)).
  { unfold registered. rewrite registered_from_lookup.
    by destruct (dict_get name (reverse regs)). }
  split_and!.
  - apply registered_from_wf, wf_new.
  - unfold names.
    rewrite <- (dict_get_is_Some (tools (registered regs))), Hget, dict_get_is_Some.
    by rewrite fmap_reverse, elem_of_reverse.
  - exact Hget.
  - unfold get_callable. csimpl. by rewrite Hget.
Qed.

(** X4. Registering twice under one name is registering the second time
    only: the first descriptor leaves no trace. *)
Theorem register_overwrites self name (f1 f2 : pyobj W) (d1 p1 d2 p2 : json) :
  register (register self name f1 d1 p1) name f2 d2 p2 = register self name f2 d2 p2.
Proof. unfold register. csimpl. by rewrite dict_set_set. Qed.

(** X5. [get_callable] raises exactly for the names that cannot be hashed,
    lists and dictionaries, and then a [TypeError] that says so; for any
    other name that is not a registered string it returns [None]. *)
Theorem get_callable_raises_iff_unhashable self (func_name : json) :
  (hashable func_name = false ->
   get_callable self func_name
   = Raise (Exc TypeError ("unhashable type: '" +:+ type_name func_name +:+ "'")))
  /\ (hashable func_name = true -> exists o, get_callable self func_name = Ok o)
  /\ ((forall key, func_name = JStr key -> key ∉ names self) ->
      hashable func_name = true ->
      get_callable self func_name = Ok (Data JNull)).
Proof.
  unfold get_callable. split_and!.
  - by intros ->.
  - intros ->. eauto.
  - intros Hun ->. destruct func_name as [| | | |key| |]; try done.
    specialize (Hun key eq_refl). apply dict_get_None in Hun. by rewrite Hun.
Qed.

Lemma dict_set_same {V : Type} (d : list (string * V)) k (v : V) :
  dict_get k d = Some v -> dict_set k v d = d.
Proof.
  induction d as [|[k' v'] d IH]; csimpl; [done|].
  destruct (decide (k' = k)) as [->|Hne].
  - by intros [= ->].
  - intros Hd. by rewrite IH.
Qed.

Lemma dict_set_fmap {A B : Type} (g : A -> B) (d : list (string * A)) k (a : A) :
  prod_map id g <$> dict_set k a d = dict_set k (g a) (prod_map id g <$> d).
Proof.
  induction d as [|[k' v'] d IH]; csimpl; [done|].
  destruct (decide (k' = k)); csimpl; [done | by rewrite IH].
Qed.

(** The comprehension looks at the items through the function only. *)
Lemma comprehension_through {A B : Type} (g : A -> B) (items : list (string * A)) :
  comprehension g items = comprehension id (prod_map id g <$> items).
Proof. unfold comprehension. by rewrite foldl_fmap. Qed.

(** X6. Registering and describing: in the mapping for the prompt, the name
    just registered carries the description and the parameters just given,
    and every other name carries what it carried before. *)
Theorem register_then_description self name (f : pyobj W) (d p : json) :
  wf self ->
  dict_get name (get_description_for_prompt (register self name f d p))
  = Some (JObj [("description", d); ("parameters", p)])
  /\ forall other,
       other <> name ->
       dict_get other (get_description_for_prompt (register self name f d p))
       = dict_get other (get_description_for_prompt self).
Proof.
  intros Hwf. unfold get_description_for_prompt.
  rewrite !comprehension_NoDup by (try apply wf_register; exact Hwf).
  rewrite !dict_get_fmap. unfold register. csimpl. split.
  - by rewrite dict_get_set_eq.
  - intros other Hne. rewrite !dict_get_fmap. by rewrite dict_get_set_ne.
Qed.

(** X7. The mapping for the prompt does not see the functions: storing
    another function under a registered name, with the description and the
    parameters it has, leaves the mapping as it is. *)
Theorem description_ignores_function self name entry (f : pyobj W) :
  dict_get name (tools self) = Some entry ->
  get_description_for_prompt
    (register self name f (description entry) (parameters entry))
  = get_description_for_prompt self.
Proof.
  intros He. unfold get_description_for_prompt, register. csimpl.
  rewrite (comprehension_through _ (dict_set _ _ _)), dict_set_fmap.
  rewrite dict_set_same; [by rewrite <- comprehension_through|].
  rewrite dict_get_fmap, He. done.
Qed.

End RegistryMore.

(** X5 at work: a list cannot name a tool, a number names none. *)
Lemma get_callable_raises_iff_unhashable_witness :
  utils.get_callable Demo.registry (JArr [JStr "get_time_now"])
  = Raise (Exc TypeError "unhashable type: 'list'")
  /\ utils.get_callable Demo.registry (JInt 7) = Ok (utils.Data JNull).
Proof.
  split.
  - apply (get_callable_raises_iff_unhashable Demo.registry
             (JArr [JStr "get_time_now"])). reflexivity.
  - apply (get_callable_raises_iff_unhashable Demo.registry (JInt 7));
      [discriminate | reflexivity].
Defined.

(** X1 at work: a calendar tool is added to the registry of main.py. *)
Lemma register_then_get_callable_witness :
  let r := utils.register Demo.registry "calendar" (utils.Function Demo.get_time_now)
             (JStr "Today's date.") (JObj []) in
  utils.get_callable r (JStr "calendar") = Ok (utils.Function Demo.get_time_now)
  /\ utils.get_callable r (JStr "retriever") = Ok (utils.Function Demo.retriever).
Proof.
  intros r.
  destruct (register_then_get_callable Demo.registry "calendar"
              (utils.Function Demo.get_time_now) (JStr "Today's date.") (JObj []))
    as [Hnew Hold].
  split; [exact Hnew|]. rewrite Hold; [reflexivity | discriminate].
Defined.

(** X6 at work, on the registry of main.py. *)
Lemma register_then_description_witness :
  dict_get "get_time_now"
    (utils.get_description_for_prompt
       (utils.register Demo.registry "get_time_now" (utils.Data JNull)
          (JStr "The time.") (JObj [])))
  = Some (JObj [("description", JStr "The time."); ("parameters", JObj [])]).
Proof.
  apply (register_then_description Demo.registry "get_time_now" (utils.Data JNull)
           (JStr "The time.") (JObj [])).
  apply wf_registry.
Defined.

(** X7 at work: the clock of main.py is replaced by a note. *)
Lemma description_ignores_function_witness :
  utils.get_description_for_prompt
    (utils.register Demo.registry "get_time_now" (utils.Data (JStr "a note"))
       (JStr "Returns the current local time in YYYY-MM-DD HH:MM:SS format.")
       (JObj []))
  = utils.get_description_for_prompt Demo.registry.
Proof.
  apply (description_ignores_function Demo.registry "get_time_now"
           {| utils.function := utils.Function Demo.get_time_now;
              utils.description :=
                JStr "Returns the current local time in YYYY-MM-DD HH:MM:SS format.";
              utils.parameters := JObj [] |}).
  reflexivity.
Defined.

(** * Further properties of main.py *)

Section AgentMore.
Import utils main plan observe.
Context {W : Type} (rt : Runtime W).
Implicit Types (self : @AgentExecutor W) (es : estate W)
  (fields : list (string * json)) (decision func_name : json)
  (tool_results : list (json * pyval)) (messages : list Message).

Lemma silent_app (l1 l2 : list (event W)) :
  silent (l1 ++ l2) = silent l1 ++ silent l2.
Proof. apply omap_app. Qed.

(** ** One tool decision, the other ways *)

(** X8. With printing off, a tool decision whose callable returns:
    [_execute_tool] hands the returned value back as it is, the callable
    has been entered once with the items of [parameters] as keyword
    arguments and has left its mark on the world, nothing else happened,
    and the loop collects the value under the name and goes on. *)
Theorem tool_result_collected self fields key entry f kwargs result w
    tool_results messages rest es :
  verbose self = false ->
  is_tool (JObj fields) = true ->
  dict_get "function" fields = Some (JStr key) ->
  dict_get key (tools (tool_registry self)) = Some entry ->
  function entry = Function f ->
  default (JObj []) (dict_get "parameters" fields) = JObj kwargs ->
  body f kwargs (world es) = (Ok result, w) ->
  _execute_tool rt self (JObj fields) es = (Ok result, entered es f kwargs w)
  /\ invocations (log (entered es f kwargs w)) = invocations (log es) ++ [(f, kwargs)]
  /\ for_decisions rt self (JObj fields :: rest) (tool_results, messages) es
     = for_decisions rt self rest
         (tool_results ++ [(JStr key, result)],
          messages ++ [AssistantMessage (json_dumps rt (JObj fields))])
         (entered es f kwargs w).
Proof.
  intros Hquiet Hk Hf He Hfn Ha Hb.
  pose proof (get_callable_registered _ _ _ He) as Hc. rewrite Hfn in Hc.
  pose proof (execute_tool_callable rt self fields _ _ _ es Hf Hc Ha) as Hex.
  rewrite Hb, Hquiet in Hex. split_and!.
  - exact Hex.
  - unfold entered. simpl. by rewrite invocations_app.
  - rewrite for_decisions_cons, (handle_decision_tool rt _ _ _ _ _ _ Hk Hf).
    by rewrite Hex.
Qed.

(** X9. A tool decision whose [parameters] is not an object: the callable
    is resolved but never entered; unpacking the arguments raises a
    [TypeError] inside the handler, so the decision yields an ["Error: ..."]
    result that names the type, the world is untouched, and the loop goes
    on. *)
Theorem non_mapping_parameters_reported self fields key entry f args
    tool_results messages rest es :
  is_tool (JObj fields) = true ->
  dict_get "function" fields = Some (JStr key) ->
  dict_get key (tools (tool_registry self)) = Some entry ->
  function entry = Function f ->
  dict_get "parameters" fields = Some args ->
  schema.is_object args = false ->
  let result := Json (JStr ("Error: " +:+ shown_as f
                            +:+ " argument after ** must be a mapping, not "
                            +:+ type_name args)) in
  _execute_tool rt self (JObj fields) es = (Ok result, es)
  /\ for_decisions rt self (JObj fields :: rest) (tool_results, messages) es
     = for_decisions rt self rest
         (tool_results ++ [(JStr key, result)],
          messages ++ [AssistantMessage (json_dumps rt (JObj fields))]) es.
Proof.
  intros Hk Hf He Hfn Ha Hno result.
  pose proof (get_callable_registered _ _ _ He) as Hc. rewrite Hfn in Hc.
  assert (Hd : default (JObj []) (dict_get "parameters" fields) = args)
    by (by rewrite Ha).
  pose proof (execute_tool_no_mapping rt self fields _ _ _ es Hf Hc Hd Hno) as Hex.
  split; [exact Hex|].
  rewrite for_decisions_cons, (handle_decision_tool rt _ _ _ _ _ _ Hk Hf).
  by rewrite Hex.
Qed.

(** X10. What the handler does not catch: when the callable raises
    something that is no [Exception] (an interrupt from the keyboard, an
    exit), [_execute_tool] lets it through, the loop stops with nothing
    collected for the decision, and the run aborts with it; the synthesis
    is never asked for. *)
Theorem tool_base_exception_aborts self fields key entry f kwargs e w
    tool_results messages rest es :
  is_tool (JObj fields) = true ->
  dict_get "function" fields = Some (JStr key) ->
  dict_get key (tools (tool_registry self)) = Some entry ->
  function entry = Function f ->
  default (JObj []) (dict_get "parameters" fields) = JObj kwargs ->
  body f kwargs (world es) = (Raise e, w) ->
  is_Exception e = false ->
  _execute_tool rt self (JObj fields) es = (Raise e, entered es f kwargs w)
  /\ for_decisions rt self (JObj fields :: rest) (tool_results, messages) es
     = (Raise e, entered es f kwargs w)
  /\ (forall user_query es0 es1 before,
        decided rt self user_query es0 (before ++ JObj fields :: rest) es1 ->
        for_decisions rt self before ([], opening rt self user_query) es1
        = (Ok (tool_results, messages), es) ->
        run rt self user_query es0 = (Raise e, entered es f kwargs w)
        /\ requests (log (entered es f kwargs w))
           = requests (log es0) ++ [decision_request rt self user_query]).
Proof.
  intros Hk Hf He Hfn Ha Hb Hexc.
  pose proof (get_callable_registered _ _ _ He) as Hc. rewrite Hfn in Hc.
  pose proof (execute_tool_callable rt self fields _ _ _ es Hf Hc Ha) as Hex.
  rewrite Hb, Hexc in Hex.
  assert (Hloop : for_decisions rt self (JObj fields :: rest) (tool_results, messages) es
                  = (Raise e, entered es f kwargs w)).
  { rewrite for_decisions_cons, (handle_decision_tool rt _ _ _ _ _ _ Hk Hf).
    by rewrite Hex. }
  split_and!; [exact Hex | exact Hloop |].
  intros user_query es0 es1 before Hd Hbefore.
  assert (Hall : for_decisions rt self (before ++ JObj fields :: rest)
                   ([], opening rt self user_query) es1
                 = (Raise e, entered es f kwargs w)).
  { rewrite for_decisions_app. unfold bind. by rewrite Hbefore. }
  split.
  - rewrite (run_decided rt _ _ _ _ _ Hd). by rewrite Hall.
  - pose proof (for_decisions_requests rt self (before ++ JObj fields :: rest)
                  ([], opening rt self user_query) es1) as Hreq.
    rewrite Hall in Hreq. simpl in Hreq. simpl. rewrite Hreq.
    destruct Hd as (? & w0 & doc & ? & _ & _ & _ & _ & ->).
    apply loop_start_requests.
Qed.

(** X11. A tool decision whose function value is a list or a dictionary
    cannot be looked up: the registry raises [TypeError: unhashable type]
    outside the handler, nothing is called or collected, and the loop stops
    there. *)
Theorem unhashable_function_name_aborts self fields func_name
    tool_results messages rest es :
  is_tool (JObj fields) = true ->
  dict_get "function" fields = Some func_name ->
  hashable func_name = false ->
  let e := Exc TypeError ("unhashable type: '" +:+ type_name func_name +:+ "'") in
  _execute_tool rt self (JObj fields) es = (Raise e, es)
  /\ for_decisions rt self (JObj fields :: rest) (tool_results, messages) es
     = (Raise e, es).
Proof.
  intros Hk Hf Hh e.
  assert (Hex : _execute_tool rt self (JObj fields) es = (Raise e, es)).
  { unfold _execute_tool, get_callable. unfold_m. simpl. by rewrite Hf, Hh. }
  split; [exact Hex|].
  rewrite for_decisions_cons, (handle_decision_tool rt _ _ _ _ _ _ Hk Hf).
  by rewrite Hex.
Qed.

(** X12. A tool decision whose function value is a number, a boolean or
    [null] names no tool: it is reported as not found, under [str] of the
    value, without raising, and the loop goes on. *)
Theorem non_string_function_name_not_found self fields func_name
    tool_results messages rest es :
  is_tool (JObj fields) = true ->
  dict_get "function" fields = Some func_name ->
  hashable func_name = true ->
  schema.is_string func_name = false ->
  let result := Json (JStr ("Function '" +:+ repr rt func_name +:+ "' not found.")) in
  _execute_tool rt self (JObj fields) es = (Ok result, es)
  /\ for_decisions rt self (JObj fields :: rest) (tool_results, messages) es
     = for_decisions rt self rest
         (tool_results ++ [(func_name, result)],
          messages ++ [AssistantMessage (json_dumps rt (JObj fields))]) es.
Proof.
  intros Hk Hf Hh Hs result.
  assert (Hc : get_callable (tool_registry self) func_name = Ok (Data JNull)).
  { unfold get_callable. rewrite Hh. by destruct func_name. }
  pose proof (execute_tool_not_callable rt self fields _ _ es Hf Hc) as Hex.
  assert (Hstr : str rt func_name = repr rt func_name) by (by destruct func_name).
  rewrite Hstr in Hex. split; [exact Hex|].
  rewrite for_decisions_cons, (handle_decision_tool rt _ _ _ _ _ _ Hk Hf).
  by rewrite Hex.
Qed.

(** ** The run, step by step *)

Lemma run_unfold self user_query es :
  run rt self user_query es
  = match service_run rt (decision_request rt self user_query) (world es) with
    | (Raise e, w) =>
        (Raise e,
         {| world := w;
            log := log es ++ [Requested (decision_request rt self user_query)] |})
    | (Ok content, w) =>
        match json_loads rt content with
        | Raise e =>
            (Raise e,
             {| world := w;
                log := log es ++ [Requested (decision_request rt self user_query)] |})
        | Ok decisions_json =>
            let es1 := loop_start rt self user_query es w decisions_json in
            match get_method decisions_json "tool_calls" (JArr []) with
            | Raise e => (Raise e, es1)
            | Ok tool_calls =>
                match iterate tool_calls with
                | Raise e => (Raise e, es1)
                | Ok decisions =>
                    match for_decisions rt self decisions
                            ([], opening rt self user_query) es1 with
                    | (Ok acc, es2) =>
                        _finalize_response rt self user_query acc.1 acc.2 es2
                    | (Raise e, es2) => (Raise e, es2)
                    end
                end
            end
        end
    end.
Proof.
  unfold run, OrchestrationService_run, loop_start. unfold_m. simpl.
  fold (opening rt self user_query). fold (decision_request rt self user_query).
  destruct (service_run rt (decision_request rt self user_query) (world es))
    as [[content|e] w]; [|done].
  destruct (json_loads rt content) as [doc|e]; [|done].
  destruct (verbose self); simpl;
    (destruct (get_method doc "tool_calls" (JArr [])) as [tc|e];
     [|by rewrite <- ?app_assoc, ?app_nil_r]);
    (destruct (iterate tc) as [ds|e]; [|by rewrite <- ?app_assoc, ?app_nil_r]);
    simpl; by rewrite <- ?app_assoc, ?app_nil_r.
Qed.

(** X13. An answer that parses to something else than an object (an array,
    a string, a number, [null]) stops the run right after parsing, with an
    [AttributeError] that names the type: the value has no [get]. No tool
    has been called. *)
Theorem non_object_answer_aborts self user_query es content w decisions_json :
  service_run rt (decision_request rt self user_query) (world es) = (Ok content, w) ->
  json_loads rt content = Ok decisions_json ->
  schema.is_object decisions_json = false ->
  let es1 := loop_start rt self user_query es w decisions_json in
  run rt self user_query es
  = (Raise (Exc AttributeError
              ("'" +:+ type_name decisions_json +:+ "' object has no attribute 'get'")),
     es1)
  /\ invocations (log es1) = invocations (log es)
  /\ requests (log es1) = requests (log es) ++ [decision_request rt self user_query].
Proof.
  intros Hs Hp Hno es1. rewrite run_unfold, Hs, Hp. split_and!.
  - by destruct decisions_json.
  - unfold es1, loop_start. simpl. rewrite !invocations_app. simpl.
    destruct (verbose self); simpl; by rewrite !app_nil_r.
  - apply loop_start_requests.
Qed.

(** X14. An answer whose [tool_calls] cannot be iterated ([null], a number,
    a boolean) stops the run before the loop, with a [TypeError] that names
    the type. *)
Theorem tool_calls_not_iterable_aborts self user_query es content w fields tool_calls :
  service_run rt (decision_request rt self user_query) (world es) = (Ok content, w) ->
  json_loads rt content = Ok (JObj fields) ->
  dict_get "tool_calls" fields = Some tool_calls ->
  (forall decisions, iterate tool_calls <> Ok decisions) ->
  run rt self user_query es
  = (Raise (Exc TypeError ("'" +:+ type_name tool_calls +:+ "' object is not iterable")),
     loop_start rt self user_query es w (JObj fields)).
Proof.
  intros Hs Hp Ht Hno. rewrite run_unfold, Hs, Hp. simpl. rewrite Ht. simpl.
  destruct tool_calls; try done; by edestruct Hno.
Qed.

(** X15. An entry of [tool_calls] that is not an object stops the loop
    when its turn comes, with an [AttributeError] that names its type;
    nothing is traced for it, and the decisions after it are not looked
    at. *)
Theorem non_object_decision_aborts self decision tool_results messages rest es :
  schema.is_object decision = false ->
  let e := Exc AttributeError
             ("'" +:+ type_name decision +:+ "' object has no attribute 'get'") in
  handle_decision rt self (tool_results, messages) decision es = (Raise e, es)
  /\ for_decisions rt self (decision :: rest) (tool_results, messages) es
     = (Raise e, es).
Proof.
  intros Hno e.
  assert (Hturn : handle_decision rt self (tool_results, messages) decision es
                  = (Raise e, es)).
  { unfold handle_decision. unfold_m. by destruct decision. }
  split; [exact Hturn | by rewrite for_decisions_cons, Hturn].
Qed.

(** X16. An answer whose [tool_calls] is a text or an object is iterated
    all the same, over its characters or over its keys; unless it is empty,
    the first of these is a string, which has no [get], and the run stops
    there with an [AttributeError], before any tool is called. *)
Theorem text_tool_calls_abort self user_query es content w fields tool_calls first others :
  service_run rt (decision_request rt self user_query) (world es) = (Ok content, w) ->
  json_loads rt content = Ok (JObj fields) ->
  dict_get "tool_calls" fields = Some tool_calls ->
  schema.is_string tool_calls || schema.is_object tool_calls = true ->
  iterate tool_calls = Ok (first :: others) ->
  schema.is_string first = true
  /\ run rt self user_query es
     = (Raise (Exc AttributeError "'str' object has no attribute 'get'"),
        loop_start rt self user_query es w (JObj fields)).
Proof.
  intros Hs Hp Ht Hkind Hi.
  assert (Hfirst : schema.is_string first = true).
  { destruct tool_calls as [| | | |text| |kvs]; try done; simpl in Hi.
    - destruct text; simplify_eq/=. done.
    - destruct kvs; simplify_eq/=. done. }
  split; [exact Hfirst|].
  rewrite run_unfold, Hs, Hp. simpl. rewrite Ht. simpl. rewrite Hi.
  rewrite for_decisions_cons.
  destruct first; try done.
Qed.

(** ** The synthesis and the requests *)

Lemma summary_lines_cons_json func_name v (rest : list (json * pyval)) :
  summary_lines rt ((func_name, Json v) :: rest)
  = match summary_lines rt rest with
    | Ok lines =>
        Ok (("- Tool `" +:+ str rt func_name +:+ "` returned: " +:+ json_dumps rt v)
            :: lines)
    | Raise e => Raise e
    end.
Proof. reflexivity. Qed.

Lemma summary_lines_stops (before : list (json * json)) func_name tp text after :
  summary_lines rt (((fun p => (p.1, Json p.2)) <$> before)
                    ++ (func_name, Opaque tp text) :: after)
  = Raise (Exc TypeError ("Object of type " +:+ tp +:+ " is not JSON serializable")).
Proof.
  induction before as [|[name v] before IH]; [done|].
  rewrite fmap_cons, <- app_comm_cons. cbn [fst snd].
  by rewrite summary_lines_cons_json, IH.
Qed.

(** X17. A collected result that [json.dumps] rejects breaks the synthesis:
    with serializable results before it, [_finalize_response] raises the
    [TypeError] for its type while building the summary, before the
    service is asked; the world and the log are as they were. *)
Theorem unserializable_result_aborts_synthesis self original_query messages es
    (before : list (json * json)) func_name tp text after :
  _finalize_response rt self original_query
    (((fun p => (p.1, Json p.2)) <$> before) ++ (func_name, Opaque tp text) :: after)
    messages es
  = (Raise (Exc TypeError ("Object of type " +:+ tp +:+ " is not JSON serializable")),
     es).
Proof.
  unfold _finalize_response. unfold bind at 1. unfold lift.
  by rewrite summary_lines_stops.
Qed.

(** X18. A failure of the model service is not handled at either place it
    is called from. When the decision request fails, the run raises the
    error with nothing else done; when the synthesis request fails,
    [_finalize_response] raises it, the work of the tools being lost. *)
Theorem transport_failure_propagates self user_query es e w :
  (service_run rt (decision_request rt self user_query) (world es) = (Raise e, w) ->
   run rt self user_query es
   = (Raise e,
      {| world := w;
         log := log es ++ [Requested (decision_request rt self user_query)] |}))
  /\ (forall tool_results messages lines,
        summary_lines rt tool_results = Ok lines ->
        service_run rt (synthesis_request self user_query messages (join nl lines))
          (world es) = (Raise e, w) ->
        _finalize_response rt self user_query tool_results messages es
        = (Raise e,
           {| world := w;
              log := log es
                     ++ [Requested (synthesis_request self user_query messages
                                      (join nl lines))] |})).
Proof.
  split.
  - intros Hs. by rewrite run_unfold, Hs.
  - intros tool_results messages lines Hl Hs.
    rewrite (finalize_response_request rt _ _ _ _ _ _ Hl).
    unfold OrchestrationService_run. unfold_m. simpl. by rewrite Hs.
Qed.

Lemma finalize_response_requests self original_query tool_results messages es :
  exists later,
    requests (log (_finalize_response rt self original_query tool_results messages es).2)
    = requests (log es) ++ later
    /\ length later <= 1
    /\ (forall config, config ∈ later ->
          template_response_format (config_template config) = ResponseFormatText
          /\ config_llm config = llm self)
    /\ (forall answer,
          (_finalize_response rt self original_query tool_results messages es).1
          = Ok answer -> length later = 1).
Proof.
  destruct (summary_lines rt tool_results) as [lines|e] eqn:Hl.
  - rewrite (finalize_response_request rt _ _ _ _ _ _ Hl).
    exists [synthesis_request self original_query messages (join nl lines)].
    rewrite service_run_requests. split_and!; [done | simpl; lia | | done].
    intros config Hin%list_elem_of_singleton. by subst.
  - exists []. unfold _finalize_response. unfold bind at 1 2. unfold lift.
    rewrite Hl. simpl. rewrite app_nil_r. split_and!; [done | simpl; lia | | done].
    intros config Hin. by apply elem_of_nil in Hin.
Qed.

(** X19. A run asks the model service at most twice: first the decision
    request, in the format of the schema, then at most one more request, in
    plain text and for the same model; a run that returns an answer has
    asked exactly twice. *)
Theorem run_requests_at_most_two self user_query es :
  exists later,
    requests (log (run rt self user_query es).2)
    = requests (log es) ++ decision_request rt self user_query :: later
    /\ length later <= 1
    /\ (forall config, config ∈ later ->
          template_response_format (config_template config) = ResponseFormatText
          /\ config_llm config = llm self)
    /\ (forall answer, (run rt self user_query es).1 = Ok answer -> length later = 1).
Proof.
  assert (Hnone : forall (e : exn) (es' : estate W),
    requests (log es') = requests (log es) ++ [decision_request rt self user_query] ->
    exists later,
      requests (log (@Raise string e, es').2)
      = requests (log es) ++ decision_request rt self user_query :: later
      /\ length later <= 1
      /\ (forall config, config ∈ later ->
            template_response_format (config_template config) = ResponseFormatText
            /\ config_llm config = llm self)
      /\ (forall answer, (@Raise string e, es').1 = Ok answer -> length later = 1)).
  { intros e es' Hreq. exists []. simpl. split_and!; [done | lia | | done].
    intros config Hin. by apply elem_of_nil in Hin. }
  assert (Hfirst :
    requests (log es ++ [Requested (decision_request rt self user_query)])
    = requests (log es) ++ [decision_request rt self user_query]).
  { by rewrite requests_app. }
  rewrite run_unfold.
  destruct (service_run rt (decision_request rt self user_query) (world es))
    as [[content|e] w]; [|by apply Hnone, Hfirst].
  destruct (json_loads rt content) as [doc|e]; [|by apply Hnone, Hfirst].
  pose proof (loop_start_requests rt self user_query es w doc) as Hstart.
  cbv zeta.
  destruct (get_method doc "tool_calls" (JArr [])) as [tc|e]; [|by apply Hnone].
  destruct (iterate tc) as [ds|e]; [|by apply Hnone].
  pose proof (for_decisions_requests rt self ds ([], opening rt self user_query)
                (loop_start rt self user_query es w doc)) as Hloop.
  rewrite Hstart in Hloop.
  destruct (for_decisions rt self ds ([], opening rt self user_query)
              (loop_start rt self user_query es w doc)) as [[acc|e] es2];
    cbn [snd] in Hloop; [|by apply Hnone].
  destruct (finalize_response_requests self user_query acc.1 acc.2 es2)
    as (later & Hreq & Hlen & Hfmt & Hok).
  exists later. rewrite Hreq, Hloop, <- app_assoc. done.
Qed.

(** X20. The conversation of the synthesis: in a run whose loop and summary
    go through, the service is asked with the two opening messages, then
    one assistant message per decision, in the order of the decisions,
    then the synthesis instruction, the question and the summary of the
    collected results, and what it answers is what the run returns. *)
Theorem run_synthesis_conversation self user_query es0 es1 decisions acc es2 lines :
  decided rt self user_query es0 decisions es1 ->
  for_decisions rt self decisions ([], opening rt self user_query) es1 = (Ok acc, es2) ->
  summary_lines rt acc.1 = Ok lines ->
  let conversation :=
    [SystemMessage (_generate_instruction rt self); UserMessage user_query]
    ++ ((fun d => AssistantMessage (json_dumps rt d)) <$> decisions)
    ++ [SystemMessage synthesis_instruction;
        UserMessage ("User question: " +:+ user_query);
        UserMessage ("Tool Results:" +:+ nl +:+ join nl lines)] in
  let config :=
    {| config_template :=
         {| template_messages := conversation;
            template_response_format := ResponseFormatText |};
       config_llm := llm self |} in
  run rt self user_query es0
  = (let (answer, w) := service_run rt config (world es2) in
     (answer, {| world := w; log := log es2 ++ [Requested config] |})).
Proof.
  intros Hd Hloop Hl conversation config.
  rewrite (run_decided rt _ _ _ _ _ Hd), Hloop.
  rewrite (finalize_response_request rt _ _ _ _ _ _ Hl).
  apply for_decisions_ok in Hloop as (_ & Hmsgs & _).
  unfold synthesis_request. rewrite Hmsgs.
  unfold OrchestrationService_run. unfold_m. simpl.
  unfold config, conversation, opening. by rewrite <- ?app_assoc.
Qed.

(** ** Printing *)

(** From [es] to [es'] the log has only grown, and by nothing printed. *)
#[local] Abbreviation grown_silently es es' :=
  (exists added, log es' = log es ++ added /\ silent added = added).

Lemma silent_length (l : list (event W)) : length (silent l) <= length l.
Proof.
  induction l as [|[f kw|c|t] l IH]; [done|..];
    change (silent (?ev :: l)) with
      (match (match ev with Printed _ => None | _ => Some ev end) with
       | Some y => y :: silent l
       | None => silent l
       end);
    simpl; lia.
Qed.

Lemma silent_id_no_print (l : list (event W)) :
  silent l = l -> Forall (fun ev => forall text, ev <> Printed text) l.
Proof.
  induction l as [|[f kw|c|t] l IH]; intros Hl.
  - constructor.
  - constructor; [done|]. apply IH.
    change (silent (Invoked f kw :: l)) with (Invoked f kw :: silent l) in Hl.
    congruence.
  - constructor; [done|]. apply IH.
    change (silent (Requested c :: l)) with (Requested c :: silent l) in Hl.
    congruence.
  - exfalso. pose proof (silent_length l) as Hle.
    change (silent (Printed t :: l)) with (silent l) in Hl.
    rewrite Hl in Hle. simpl in Hle. lia.
Qed.

Lemma grown_silently_refl es : grown_silently es es.
Proof. exists []. by rewrite app_nil_r. Qed.

Lemma grown_silently_trans es1 es2 es3 :
  grown_silently es1 es2 -> grown_silently es2 es3 -> grown_silently es1 es3.
Proof.
  intros (a1 & H1 & Hs1) (a2 & H2 & Hs2). exists (a1 ++ a2).
  by rewrite H2, H1, <- app_assoc, silent_app, Hs1, Hs2.
Qed.

Lemma execute_tool_silent self decision es :
  verbose self = false ->
  grown_silently es (_execute_tool rt self decision es).2.
Proof.
  intros Hquiet. unfold _execute_tool. unfold_m. rewrite Hquiet.
  destruct (getitem decision "function") as [func_name|e];
    [|apply grown_silently_refl]. simpl.
  destruct (get_method decision "parameters" (JObj [])) as [args|e];
    [|apply grown_silently_refl]. simpl.
  destruct (get_callable (tool_registry self) func_name) as [[f|v]|e];
    [|apply grown_silently_refl..].
  unfold call_kwargs. unfold_m.
  destruct args as [| | | | | |kwargs]; simpl; try apply grown_silently_refl.
  destruct (body f kwargs (world es)) as [[result|e] w]; simpl.
  - by exists [Invoked f kwargs].
  - destruct (is_Exception e); by exists [Invoked f kwargs].
Qed.

Lemma handle_decision_silent self acc decision es :
  verbose self = false ->
  grown_silently es (handle_decision rt self acc decision es).2.
Proof.
  intros Hquiet. destruct acc as [tool_results messages].
  unfold handle_decision. unfold_m.
  destruct (get_method decision "decision" JNull) as [kind|e];
    [|apply grown_silently_refl]. simpl.
  destruct (eq_str kind "tool"); [|apply grown_silently_refl].
  pose proof (execute_tool_silent self decision es Hquiet) as Hex.
  destruct (_execute_tool rt self decision es) as [[r|e] es1]; [|done].
  by destruct (getitem decision "function").
Qed.

Lemma for_decisions_silent self (ds : list json) acc es :
  verbose self = false ->
  grown_silently es (for_decisions rt self ds acc es).2.
Proof.
  intros Hquiet. revert acc es.
  induction ds as [|d ds IH]; intros acc es; [apply grown_silently_refl|].
  rewrite for_decisions_cons.
  pose proof (handle_decision_silent self acc d es Hquiet) as Hd.
  destruct (handle_decision rt self acc d es) as [[acc1|e] es1]; [|done].
  apply (grown_silently_trans _ es1); [done | apply IH].
Qed.

Lemma finalize_response_silent self original_query tool_results messages es :
  grown_silently es
    (_finalize_response rt self original_query tool_results messages es).2.
Proof.
  unfold _finalize_response, OrchestrationService_run. unfold_m. simpl.
  destruct (summary_lines rt tool_results) as [lines|e];
    [|apply grown_silently_refl]. simpl.
  match goal with |- context [service_run rt ?c (world es)] =>
    destruct (service_run rt c (world es)) as [r w]; by exists [Requested c] end.
Qed.

(** X21. An agent told not to print prints nothing: whatever the run of an
    agent with [verbose] off does and however it ends, it has only added to
    the log, and what it added are calls of tools and requests to the
    service, no output. *)
Theorem quiet_run_prints_nothing self user_query es :
  verbose self = false ->
  exists added,
    log (run rt self user_query es).2 = log es ++ added
    /\ silent added = added
    /\ Forall (fun ev => forall text, ev <> Printed text) added.
Proof.
  intros Hquiet.
  assert (Hrun : grown_silently es (run rt self user_query es).2).
  { rewrite run_unfold.
    destruct (service_run rt (decision_request rt self user_query) (world es))
      as [[content|e] w];
      [|by exists [Requested (decision_request rt self user_query)]].
    destruct (json_loads rt content) as [doc|e];
      [|by exists [Requested (decision_request rt self user_query)]].
    assert (Hstart : grown_silently es (loop_start rt self user_query es w doc)).
    { exists [Requested (decision_request rt self user_query)].
      unfold loop_start. rewrite Hquiet. simpl. by rewrite app_nil_r. }
    cbv zeta.
    destruct (get_method doc "tool_calls" (JArr [])) as [tc|e]; [|done].
    destruct (iterate tc) as [ds|e]; [|done].
    pose proof (for_decisions_silent self ds ([], opening rt self user_query)
                  (loop_start rt self user_query es w doc) Hquiet) as Hloop.
    destruct (for_decisions rt self ds ([], opening rt self user_query)
                (loop_start rt self user_query es w doc)) as [[acc|e] es2];
      simpl in Hloop.
    - apply (grown_silently_trans _ (loop_start rt self user_query es w doc));
        [done|].
      apply (grown_silently_trans _ es2); [done|].
      apply finalize_response_silent.
    - by apply (grown_silently_trans _ (loop_start rt self user_query es w doc)). }
  destruct Hrun as (added & Hlog & Hsilent). exists added.
  split_and!; [done.. | by apply silent_id_no_print].
Qed.

(** ** Answers that conform to the schema *)

Lemma conforms_item_fields decision :
  schema.conforms_item decision = true ->
  exists fields kind key kwargs,
    decision = JObj fields
    /\ dict_get "decision" fields = Some (JStr kind)
    /\ dict_get "function" fields = Some (JStr key)
    /\ dict_get "parameters" fields = Some (JObj kwargs).
Proof.
  destruct decision as [| | | | | |fields]; try done. simpl.
  unfold schema.has, schema.typed.
  rewrite !andb_true_iff, !bool_decide_eq_true.
  intros [[[[([k Hk] & _ & [fn Hfn] & [pa Hpa] & _) Hkt] _] Hft] Hpt].
  rewrite Hk in Hkt. rewrite Hfn in Hft. rewrite Hpa in Hpt.
  destruct k, fn, pa; try done. eauto 10.
Qed.

Lemma execute_tool_raises_base self fields key e es es' :
  dict_get "function" fields = Some (JStr key) ->
  _execute_tool rt self (JObj fields) es = (Raise e, es') ->
  is_Exception e = false.
Proof.
  intros Hf. unfold _execute_tool. unfold_m. simpl. rewrite Hf. simpl.
  destruct (dict_get key (tools (tool_registry self))) as [entry|]; [|done].
  destruct (function entry) as [f|v]; [|done].
  destruct (call_kwargs f (default (JObj []) (dict_get "parameters" fields)) es)
    as [[result|e0] es0]; simpl.
  - by destruct (verbose self).
  - destruct (is_Exception e0) eqn:He0; [done|]. by intros [= <- <-].
Qed.

(** X22. What the schema buys: when the parsed answer conforms to the
    schema of [_build_dynamic_schema], its [tool_calls] is an array the loop
    can walk, and no lookup of the loop can fail; the only error that can
    stop the loop is one that a callable raised and that is no
    [Exception]. *)
Theorem conforming_answer_only_tools_abort self decisions_json :
  schema.conforms decisions_json = true ->
  exists decisions,
    get_method decisions_json "tool_calls" (JArr []) = Ok (JArr decisions)
    /\ iterate (JArr decisions) = Ok decisions
    /\ forall acc es e es',
         for_decisions rt self decisions acc es = (Raise e, es') ->
         is_Exception e = false.
Proof.
  destruct decisions_json as [| | | | | |fields]; try done. simpl.
  destruct (dict_get "tool_calls" fields) as [[| | | | |decisions|]|]; try done.
  intros Hall. exists decisions. split_and!; [done..|].
  rewrite List.forallb_forall in Hall.
  induction decisions as [|d ds IH]; intros acc es e es'; [done|].
  rewrite for_decisions_cons.
  assert (Hd : schema.conforms_item d = true) by (apply Hall; by left).
  apply conforms_item_fields in Hd as (dfields & kind & key & kwargs & -> & Hk & Hf & Hp).
  destruct acc as [tool_results messages].
  destruct (is_tool (JObj dfields)) eqn:Htool.
  - rewrite (handle_decision_tool rt _ _ _ _ _ _ Htool Hf).
    destruct (_execute_tool rt self (JObj dfields) es) as [[r|e0] es0] eqn:Hex.
    + apply IH. intros x Hx. apply Hall. by right.
    + intros [= <- <-]. by apply (execute_tool_raises_base _ _ _ _ _ _ Hf Hex).
  - rewrite (handle_decision_no_tool rt _ _ _ _ _ Htool).
    apply IH. intros x Hx. apply Hall. by right.
Qed.

(** ** Tools that return JSON *)

Lemma execute_tool_json self decision es result es' :
  returns_json (tool_registry self) ->
  _execute_tool rt self decision es = (Ok result, es') ->
  is_json result.
Proof.
  intros Hjson. unfold _execute_tool, get_callable. unfold_m.
  destruct (getitem decision "function") as [func_name|e]; [|done]. simpl.
  destruct (get_method decision "parameters" (JObj [])) as [args|e]; [|done]. simpl.
  destruct (hashable func_name); [|done]. simpl.
  assert (Hnone : forall s es0,
    (@Ok pyval (Json (JStr s)), es0) = (Ok result, es') -> is_json result).
  { intros s es0 [= <- <-]. by eexists. }
  destruct func_name as [| | | |key| |]; try apply Hnone.
  destruct (dict_get key (tools (tool_registry self))) as [entry|] eqn:He;
    [|apply Hnone].
  destruct (function entry) as [f|v] eqn:Hfn; [|apply Hnone].
  unfold call_kwargs. unfold_m.
  destruct args as [| | | | | |kwargs]; simpl; try apply Hnone.
  destruct (body f kwargs (world es)) as [[r|e] w] eqn:Hb; simpl.
  - intros Hr. assert (r = result) as <- by (by destruct (verbose self); injection Hr).
    by apply (Hjson key entry f kwargs (world es) r w).
  - destruct (is_Exception e); [apply Hnone | done].
Qed.

Lemma for_decisions_json self (ds : list json) tool_results messages es acc' es' :
  returns_json (tool_registry self) ->
  Forall (fun p => is_json p.2) tool_results ->
  for_decisions rt self ds (tool_results, messages) es = (Ok acc', es') ->
  Forall (fun p => is_json p.2) acc'.1.
Proof.
  intros Hjson. revert tool_results messages es.
  induction ds as [|d ds IH]; intros tool_results messages es Hall.
  - by intros [= <- <-].
  - rewrite for_decisions_cons. unfold handle_decision. unfold_m.
    destruct (get_method d "decision" JNull) as [kind|e]; [|done]. simpl.
    destruct (eq_str kind "tool").
    + destruct (_execute_tool rt self d es) as [[r|e] es1] eqn:Hex; [|done].
      destruct (getitem d "function") as [func_name|e]; [|done]. simpl.
      apply IH. apply Forall_app. split; [done|].
      apply Forall_singleton. simpl. by apply (execute_tool_json _ _ _ _ _ Hjson Hex).
    + by apply IH.
Qed.

Lemma summary_lines_total tool_results :
  Forall (fun p => is_json p.2) tool_results ->
  exists lines,
    summary_lines rt tool_results = Ok lines /\ length lines = length tool_results.
Proof.
  induction 1 as [|[func_name r] trs [v Hv] _ (lines & Hl & Hlen)]; [by exists []|].
  simpl in Hv. subst r. rewrite summary_lines_cons_json, Hl.
  eexists. split; [done|]. simpl. by rewrite Hlen.
Qed.

(** X23. When every registered callable returns values that [json.dumps]
    accepts, every collected result is such a value, whatever the decisions
    were, so the summary can always be built: a run whose loop goes through
    reaches the model service with a summary of one line per tool
    decision. *)
Theorem json_tools_keep_synthesis_going self user_query es0 es1 decisions acc es2 :
  returns_json (tool_registry self) ->
  decided rt self user_query es0 decisions es1 ->
  for_decisions rt self decisions ([], opening rt self user_query) es1 = (Ok acc, es2) ->
  Forall (fun p => is_json p.2) acc.1
  /\ exists lines,
       summary_lines rt acc.1 = Ok lines
       /\ length lines = length (List.filter is_tool decisions)
       /\ run rt self user_query es0
          = OrchestrationService_run rt
              (synthesis_request self user_query acc.2 (join nl lines)) es2.
Proof.
  intros Hjson Hd Hloop.
  assert (Hall : Forall (fun p => is_json p.2) acc.1).
  { by apply (for_decisions_json _ _ _ _ _ _ _ Hjson (Forall_nil_2 _) Hloop). }
  split; [exact Hall|].
  destruct (summary_lines_total _ Hall) as (lines & Hl & Hlen).
  exists lines. split_and!.
  - exact Hl.
  - rewrite Hlen.
    apply for_decisions_ok in Hloop as ((collected & -> & Hnames) & _). simpl.
    apply (f_equal length) in Hnames. by rewrite !length_fmap in Hnames.
  - rewrite (run_decided rt _ _ _ _ _ Hd), Hloop.
    by apply finalize_response_request.
Qed.

End AgentMore.

(** ** The further properties at work *)

(** X8 at work: the clock answers an agent that does not print. *)
Lemma tool_result_collected_witness :
  let d := Demo.decision "tool" "get_time_now" (JObj []) in
  let rt := Demo.rt "R" (Ok (Demo.tool_calls [d])) in
  main._execute_tool rt (observe.quiet (Demo.agent Demo.registry)) d Demo.start
  = (Ok (Json (JObj [("time", JStr "2025-06-01 12:00:00")])),
     entered Demo.start Demo.get_time_now [] 1).
Proof.
  intros d rt.
  destruct (tool_result_collected rt (observe.quiet (Demo.agent Demo.registry))
              (Demo.decision_fields "tool" "get_time_now" (JObj [])) "get_time_now"
              {| utils.function := utils.Function Demo.get_time_now;
                 utils.description :=
                   JStr "Returns the current local time in YYYY-MM-DD HH:MM:SS format.";
                 utils.parameters := JObj [] |}
              Demo.get_time_now []
              (Json (JObj [("time", JStr "2025-06-01 12:00:00")])) 1
              [] [] [] Demo.start) as (Hex & _).
  - reflexivity.
  - reflexivity.
  - reflexivity.
  - reflexivity.
  - reflexivity.
  - reflexivity.
  - reflexivity.
  - exact Hex.
Defined.

(** X9 at work: the coordinates come as an array. *)
Lemma non_mapping_parameters_reported_witness :
  let args := JArr [JFloat 48.8566; JFloat 2.3522] in
  let d := Demo.decision "tool" "get_weather" args in
  let rt := Demo.rt "R" (Ok (Demo.tool_calls [d])) in
  main._execute_tool rt (Demo.agent Demo.registry) d Demo.start
  = (Ok (Json (JStr "Error: get_weather() argument after ** must be a mapping, not list")),
     Demo.start).
Proof.
  intros args d rt.
  destruct (non_mapping_parameters_reported rt (Demo.agent Demo.registry)
              (Demo.decision_fields "tool" "get_weather" args) "get_weather"
              {| utils.function := utils.Function Demo.get_weather;
                 utils.description :=
                   JStr "Retrieves current weather data for a given set of geographic coordinates (latitude, longitude).";
                 utils.parameters :=
                   JObj [("latitude", JStr "float - The latitude of the location.");
                         ("longitude", JStr "float - The longitude of the location.")] |}
              Demo.get_weather args [] [] [] Demo.start) as [Hex _].
  - reflexivity.
  - reflexivity.
  - reflexivity.
  - reflexivity.
  - reflexivity.
  - reflexivity.
  - exact Hex.
Defined.

(** X10 at work: the user interrupts a tool; the clock is never asked. *)
Lemma tool_base_exception_aborts_witness :
  let d := Demo.decision "tool" "interrupted" (JObj []) in
  let later := Demo.decision "tool" "get_time_now" (JObj []) in
  let rt := Demo.rt "R" (Ok (Demo.tool_calls [d; later])) in
  main.for_decisions rt (Demo.agent Lab.registry) [d; later] ([], []) Demo.start
  = (Raise (Exc (Other "KeyboardInterrupt" false) EmptyString),
     entered Demo.start Lab.interrupted [] 1).
Proof.
  intros d later rt.
  destruct (tool_base_exception_aborts rt (Demo.agent Lab.registry)
              (Demo.decision_fields "tool" "interrupted" (JObj [])) "interrupted"
              {| utils.function := utils.Function Lab.interrupted;
                 utils.description := JStr "Never comes back.";
                 utils.parameters := JObj [] |}
              Lab.interrupted [] (Exc (Other "KeyboardInterrupt" false) EmptyString) 1
              [] [] [later] Demo.start) as (_ & Hloop & _).
  - reflexivity.
  - reflexivity.
  - reflexivity.
  - reflexivity.
  - reflexivity.
  - reflexivity.
  - reflexivity.
  - exact Hloop.
Defined.

(** X11 at work: the model names two tools at once. *)
Lemma unhashable_function_name_aborts_witness :
  let name := JArr [JStr "get_time_now"; JStr "get_weather"] in
  let fields := [("decision", JStr "tool"); ("reason", JStr "because");
                 ("function", name); ("parameters", JObj [])] in
  let rt := Demo.rt "R" (Ok (Demo.tool_calls [JObj fields])) in
  main.for_decisions rt (Demo.agent Demo.registry) [JObj fields] ([], []) Demo.start
  = (Raise (Exc TypeError "unhashable type: 'list'"), Demo.start).
Proof.
  intros name fields rt.
  destruct (unhashable_function_name_aborts rt (Demo.agent Demo.registry) fields name
              [] [] [] Demo.start) as [_ Hloop].
  - reflexivity.
  - reflexivity.
  - reflexivity.
  - exact Hloop.
Defined.

(** X12 at work: the model gives a number for a name. *)
Lemma non_string_function_name_not_found_witness :
  let fields := [("decision", JStr "tool"); ("reason", JStr "because");
                 ("function", JInt 3); ("parameters", JObj [])] in
  let rt := Demo.rt "R" (Ok (Demo.tool_calls [JObj fields])) in
  main._execute_tool rt (Demo.agent Demo.registry) (JObj fields) Demo.start
  = (Ok (Json (JStr "Function '3' not found.")), Demo.start).
Proof.
  intros fields rt.
  destruct (non_string_function_name_not_found rt (Demo.agent Demo.registry) fields
              (JInt 3) [] [] [] Demo.start) as [Hex _].
  - reflexivity.
  - reflexivity.
  - reflexivity.
  - reflexivity.
  - exact Hex.
Defined.

(** X13 at work: the model answers with a bare array. *)
Lemma non_object_answer_aborts_witness :
  let rt := Demo.rt "R" (Ok (JArr [])) in
  (main.run rt (Demo.agent Demo.registry) "Hello" Demo.start).1
  = Raise (Exc AttributeError "'list' object has no attribute 'get'").
Proof.
  intros rt.
  destruct (non_object_answer_aborts rt (Demo.agent Demo.registry) "Hello" Demo.start
              "R" 1 (JArr [])) as (Hrun & _).
  - reflexivity.
  - reflexivity.
  - reflexivity.
  - by rewrite Hrun.
Defined.

(** X14 at work: the model answers with [tool_calls] set to [null]. *)
Lemma tool_calls_not_iterable_aborts_witness :
  let rt := Demo.rt "R" (Ok (JObj [("tool_calls", JNull)])) in
  (main.run rt (Demo.agent Demo.registry) "Hello" Demo.start).1
  = Raise (Exc TypeError "'NoneType' object is not iterable").
Proof.
  intros rt.
  rewrite (tool_calls_not_iterable_aborts rt (Demo.agent Demo.registry) "Hello"
             Demo.start "R" 1 [("tool_calls", JNull)] JNull).
  - reflexivity.
  - reflexivity.
  - reflexivity.
  - reflexivity.
  - discriminate.
Defined.

(** X15 at work: an entry of the array is a mere text. *)
Lemma non_object_decision_aborts_witness :
  let rt := Demo.rt "R" (Ok (Demo.tool_calls [JStr "get_time_now"])) in
  main.for_decisions rt (Demo.agent Demo.registry) [JStr "get_time_now"] ([], [])
    Demo.start
  = (Raise (Exc AttributeError "'str' object has no attribute 'get'"), Demo.start).
Proof.
  intros rt.
  destruct (non_object_decision_aborts rt (Demo.agent Demo.registry)
              (JStr "get_time_now") [] [] [] Demo.start) as [_ Hloop].
  - reflexivity.
  - exact Hloop.
Defined.

(** X16 at work: the model answers with [tool_calls] set to a text. *)
Lemma text_tool_calls_abort_witness :
  let rt := Demo.rt "R" (Ok (JObj [("tool_calls", JStr "none")])) in
  (main.run rt (Demo.agent Demo.registry) "Hello" Demo.start).1
  = Raise (Exc AttributeError "'str' object has no attribute 'get'").
Proof.
  intros rt.
  destruct (text_tool_calls_abort rt (Demo.agent Demo.registry) "Hello" Demo.start
              "R" 1 [("tool_calls", JStr "none")] (JStr "none")
              (JStr "n") [JStr "o"; JStr "n"; JStr "e"]) as [_ Hrun].
  - reflexivity.
  - reflexivity.
  - reflexivity.
  - reflexivity.
  - reflexivity.
  - by rewrite Hrun.
Defined.

(** X18 at work: the model service is down. *)
Lemma transport_failure_propagates_witness :
  (main.run Lab.rt_down (Demo.agent Demo.registry) "Hello" Demo.start).1
  = Raise (Exc (Other "ConnectionError" true) "service unreachable")
  /\ invocations
       (log (main.run Lab.rt_down (Demo.agent Demo.registry) "Hello" Demo.start).2)
     = [].
Proof.
  destruct (transport_failure_propagates Lab.rt_down (Demo.agent Demo.registry) "Hello"
              Demo.start (Exc (Other "ConnectionError" true) "service unreachable") 1)
    as [Hrun _].
  rewrite Hrun by reflexivity. split; reflexivity.
Defined.

(** X20 at work: the clock was asked for. *)
Lemma run_synthesis_conversation_witness :
  let d := Demo.decision "tool" "get_time_now" (JObj []) in
  let rt := Demo.rt "R" (Ok (Demo.tool_calls [d])) in
  let self := Demo.agent Demo.registry in
  (main.run rt self "What time is it?" Demo.start).1 = Ok "final answer"
  /\ world (main.run rt self "What time is it?" Demo.start).2 = 3.
Proof.
  intros d rt self.
  destruct (main.for_decisions rt self [d] ([], plan.opening rt self "What time is it?")
              (Demo.loop_begin Demo.registry "What time is it?" (Demo.tool_calls [d])))
    as [[acc|e] es2] eqn:Hloop; [|by vm_compute in Hloop].
  pose proof Hloop as Hc. vm_compute in Hc. injection Hc as <- <-.
  rewrite (run_synthesis_conversation rt self "What time is it?" Demo.start
             (Demo.loop_begin Demo.registry "What time is it?" (Demo.tool_calls [d]))
             [d] _ _
             ["- Tool `get_time_now` returned: {" +:+ dq +:+ "time" +:+ dq +:+ ": "
                +:+ dq +:+ "2025-06-01 12:00:00" +:+ dq +:+ "}"]
             (demo_decided Demo.registry "What time is it?" [d]) Hloop eq_refl).
  split; reflexivity.
Defined.

(** X21 at work: the clock is asked for, by an agent that does not print. *)
Lemma quiet_run_prints_nothing_witness :
  let d := Demo.decision "tool" "get_time_now" (JObj []) in
  let rt := Demo.rt "R" (Ok (Demo.tool_calls [d])) in
  let self := observe.quiet (Demo.agent Demo.registry) in
  exists added,
    log (main.run rt self "What time is it?" Demo.start).2 = added
    /\ length added = 3
    /\ Forall (fun ev => forall text, ev <> Printed text) added.
Proof.
  intros d rt self.
  destruct (quiet_run_prints_nothing rt self "What time is it?" Demo.start)
    as (added & Hlog & _ & Hnone).
  - reflexivity.
  - change (log Demo.start ++ added) with added in Hlog.
    exists added. split_and!; [exact Hlog | | exact Hnone].
    rewrite <- Hlog. reflexivity.
Defined.

(** X22 at work: an answer as the schema wants it, for an unknown tool. *)
Lemma conforming_answer_only_tools_abort_witness :
  let d := Demo.decision "tool" "lookup_stock" (JObj []) in
  let rt := Demo.rt "R" (Ok (Demo.tool_calls [d])) in
  exists decisions,
    get_method (Demo.tool_calls [d]) "tool_calls" (JArr []) = Ok (JArr decisions)
    /\ forall acc es e es',
         main.for_decisions rt (Demo.agent Demo.registry) decisions acc es = (Raise e, es') ->
         is_Exception e = false.
Proof.
  intros d rt.
  destruct (conforming_answer_only_tools_abort rt (Demo.agent Demo.registry)
              (Demo.tool_calls [d])) as (decisions & Hget & _ & Hloop).
  - reflexivity.
  - exists decisions. split; [exact Hget | exact Hloop].
Defined.

Lemma demo_returns_json : observe.returns_json Demo.registry.
Proof.
  intros key entry f kwargs w result w' He Hfn Hb.
  unfold Demo.registry, main.registry, utils.register in He. simpl in He.
  repeat (destruct (decide (_ = key)) in He; simplify_eq/=).
  - destruct (dict_get "latitude" kwargs), (dict_get "longitude" kwargs);
      simplify_eq/=; by eexists.
  - destruct kwargs as [|[k v] kwargs]; simplify_eq/=. by eexists.
Qed.

(** X23 at work: the tools of the small world return JSON. *)
Lemma json_tools_keep_synthesis_going_witness :
  let d1 := Demo.decision "tool" "get_time_now" (JObj []) in
  let d2 := Demo.decision "tool" "retriever" (JObj [("question", JStr "q")]) in
  let rt := Demo.rt "R" (Ok (Demo.tool_calls [d1; d2])) in
  let self := Demo.agent Demo.registry in
  let es1 := Demo.loop_begin Demo.registry "When?" (Demo.tool_calls [d1; d2]) in
  match main.for_decisions rt self [d1; d2] ([], plan.opening rt self "When?") es1 with
  | (Ok acc, _) =>
      exists lines, main.summary_lines rt acc.1 = Ok lines /\ length lines = 2
  | (Raise _, _) => False
  end.
Proof.
  intros d1 d2 rt self es1.
  destruct (main.for_decisions rt self [d1; d2] ([], plan.opening rt self "When?") es1)
    as [[acc|e] es2] eqn:Hloop; [|by vm_compute in Hloop].
  destruct (json_tools_keep_synthesis_going rt self "When?" Demo.start es1 [d1; d2]
              acc es2 demo_returns_json (demo_decided Demo.registry "When?" [d1; d2])
              Hloop)
    as (_ & lines & Hl & Hlen & _).
  exists lines. split; [exact Hl | exact Hlen].
Defined.

(** * Properties of tools.py *)

Section ToolsFacts.
Import utils main plan tools.
Context {W : Type} (rt : Runtime W) (out : Outside W).

Lemma filter_nil_iff {A : Type} (f : A -> bool) (l : list A) :
  List.filter f l = [] <-> forall x, x ∈ l -> f x = false.
Proof.
  induction l as [|a l IH]; simpl.
  - split; [intros _ x Hx; by apply elem_of_nil in Hx | done].
  - destruct (f a) eqn:Hfa.
    + split; [done|]. intros Hall. specialize (Hall a). rewrite Hfa in Hall.
      discriminate Hall. apply elem_of_cons. by left.
    + rewrite IH. split.
      * intros Hall x [->|Hx]%elem_of_cons; [done | by apply Hall].
      * intros Hall x Hx. apply Hall, elem_of_cons. by right.
Qed.

(** The binding goes through exactly when the keywords are the parameters. *)
Lemma binding_error_None fname (params : list string) (kwargs : list (string * json)) :
  binding_error fname params kwargs = None
  <-> (forall k, k ∈ kwargs.*1 -> k ∈ params) /\ (forall p, p ∈ params -> p ∈ kwargs.*1).
Proof.
  unfold binding_error.
  destruct (List.filter (fun k => negb (bool_decide (k ∈ params))) kwargs.*1)
    as [|k0 extra] eqn:Hextra.
  - pose proof (proj1 (filter_nil_iff _ _) Hextra) as Hno_extra.
    destruct (List.filter (fun p => negb (bool_decide (p ∈ kwargs.*1))) params)
      as [|p0 missing] eqn:Hmissing.
    + pose proof (proj1 (filter_nil_iff _ _) Hmissing) as Hno_missing.
      split; [intros _|done]. split.
      * intros k Hk. apply Hno_extra, negb_false_iff, bool_decide_eq_true in Hk. done.
      * intros p Hp. apply Hno_missing, negb_false_iff, bool_decide_eq_true in Hp. done.
    + split; [done|]. intros [_ Hall]. exfalso.
      assert (Hin : p0 ∈ List.filter (fun p => negb (bool_decide (p ∈ kwargs.*1))) params)
        by (rewrite Hmissing; apply elem_of_cons; by left).
      apply list_elem_of_In, List.filter_In in Hin as [Hin Hno].
      apply negb_true_iff, bool_decide_eq_false in Hno.
      apply Hno, Hall, list_elem_of_In, Hin.
  - split; [done|]. intros [Hall _]. exfalso.
    assert (Hin : k0 ∈ List.filter (fun k => negb (bool_decide (k ∈ params))) kwargs.*1)
      by (rewrite Hextra; apply elem_of_cons; by left).
    apply list_elem_of_In, List.filter_In in Hin as [Hin Hno].
    apply negb_true_iff, bool_decide_eq_false in Hno.
    apply Hno, Hall, list_elem_of_In, Hin.
Qed.

Lemma binding_error_TypeError fname (params : list string) kwargs e :
  binding_error fname params kwargs = Some e -> exists msg, e = Exc TypeError msg.
Proof.
  unfold binding_error.
  destruct (List.filter _ kwargs.*1); [|intros [= <-]; eauto].
  destruct (List.filter _ params); [done | intros [= <-]; eauto].
Qed.

Lemma latitude_is_parameter : "latitude" ∈ ["latitude"; "longitude"].
Proof. apply elem_of_cons. by left. Qed.

Lemma longitude_is_parameter : "longitude" ∈ ["latitude"; "longitude"].
Proof. apply elem_of_cons. right. apply elem_of_cons. by left. Qed.

Lemma weather_parameter (p : string) :
  p ∈ ["latitude"; "longitude"] -> p = "latitude" \/ p = "longitude".
Proof.
  intros [->|Hp]%elem_of_cons; [by left|].
  apply elem_of_cons in Hp as [->|Hp]; [by right|]. by apply elem_of_nil in Hp.
Qed.

Lemma weather_binding (kwargs : list (string * json)) latitude longitude :
  dict_get "latitude" kwargs = Some latitude ->
  dict_get "longitude" kwargs = Some longitude ->
  (forall k, k ∈ kwargs.*1 -> k = "latitude" \/ k = "longitude") ->
  binding_error "get_weather" ["latitude"; "longitude"] kwargs = None.
Proof.
  intros Hla Hlo Hall. apply binding_error_None. split.
  - intros k [->| ->]%Hall;
      [apply latitude_is_parameter | apply longitude_is_parameter].
  - intros p [->| ->]%weather_parameter; apply dict_get_is_Some; by eexists.
Qed.

(** X24. [get_weather] wants its two coordinates and nothing else: called
    without one of them, or with any other keyword, it raises a
    [TypeError] before it asks the forecast service; the world is as it
    was. *)
Theorem get_weather_needs_both_coordinates (kwargs : list (string * json)) w :
  dict_get "latitude" kwargs = None
  \/ dict_get "longitude" kwargs = None
  \/ (exists k, k ∈ kwargs.*1 /\ k <> "latitude" /\ k <> "longitude") ->
  exists msg, body (get_weather rt out) kwargs w = (Raise (Exc TypeError msg), w).
Proof.
  intros Hbad. simpl.
  destruct (binding_error "get_weather" ["latitude"; "longitude"] kwargs) as [e|] eqn:Hb.
  - apply binding_error_TypeError in Hb as [msg ->]. by exists msg.
  - exfalso. apply binding_error_None in Hb as [Hkeys Hparams].
    destruct Hbad as [Hn|[Hn|(k & Hk & Hla & Hlo)]].
    + apply dict_get_None in Hn. apply Hn, Hparams, latitude_is_parameter.
    + apply dict_get_None in Hn. apply Hn, Hparams, longitude_is_parameter.
    + apply Hkeys, weather_parameter in Hk as [->| ->]; done.
Qed.

(** X25. Called with its two coordinates, [get_weather] asks the forecast
    service once, at the address made of the two, and hands back what the
    body of the response holds under [current], as it is; a body that is an
    object without [current] makes it raise [KeyError('current')], and what
    the request raised it raises too. *)
Theorem get_weather_returns_current (kwargs : list (string * json))
    latitude longitude w :
  dict_get "latitude" kwargs = Some latitude ->
  dict_get "longitude" kwargs = Some longitude ->
  (forall k, k ∈ kwargs.*1 -> k = "latitude" \/ k = "longitude") ->
  let asked := get_json out (forecast_url rt latitude longitude) w in
  (forall fields current w',
     asked = (Ok (JObj fields), w') ->
     dict_get "current" fields = Some current ->
     body (get_weather rt out) kwargs w = (Ok (Json current), w'))
  /\ (forall fields w',
        asked = (Ok (JObj fields), w') ->
        dict_get "current" fields = None ->
        body (get_weather rt out) kwargs w = (Raise (Exc KeyError "'current'"), w'))
  /\ (forall e w',
        asked = (Raise e, w') ->
        body (get_weather rt out) kwargs w = (Raise e, w')).
Proof.
  intros Hla Hlo Hall asked. unfold asked. simpl.
  rewrite (weather_binding _ _ _ Hla Hlo Hall), Hla, Hlo. simpl. split_and!.
  - intros fields current w' -> Hc. simpl. by rewrite Hc.
  - intros fields w' -> Hc. simpl. by rewrite Hc.
  - by intros e w' ->.
Qed.

(** X26. The agent and the weather: when the forecast service answers with
    an object that has no [current], as it does for coordinates it
    rejects, the tool decision for the weather yields the result
    ["Error: 'current'"], and the run goes on. *)
Theorem weather_error_body_reported (self : @AgentExecutor W) fields entry
    (kwargs : list (string * json)) latitude longitude answer w' es :
  dict_get "function" fields = Some (JStr "get_weather") ->
  dict_get "get_weather" (tools (tool_registry self)) = Some entry ->
  function entry = Function (get_weather rt out) ->
  dict_get "parameters" fields = Some (JObj kwargs) ->
  dict_get "latitude" kwargs = Some latitude ->
  dict_get "longitude" kwargs = Some longitude ->
  (forall k, k ∈ kwargs.*1 -> k = "latitude" \/ k = "longitude") ->
  get_json out (forecast_url rt latitude longitude) (world es) = (Ok (JObj answer), w') ->
  dict_get "current" answer = None ->
  _execute_tool rt self (JObj fields) es
  = (Ok (Json (JStr "Error: 'current'")), entered es (get_weather rt out) kwargs w').
Proof.
  intros Hf He Hfn Hp Hla Hlo Hall Hask Hc.
  pose proof (get_callable_registered _ _ _ He) as Hcall. rewrite Hfn in Hcall.
  assert (Ha : default (JObj []) (dict_get "parameters" fields) = JObj kwargs)
    by (by rewrite Hp).
  rewrite (execute_tool_callable rt self fields _ _ _ es Hf Hcall Ha).
  assert (Hb : body (get_weather rt out) kwargs (world es)
               = (Raise (Exc KeyError "'current'"), w')).
  { simpl. rewrite (weather_binding _ _ _ Hla Hlo Hall), Hla, Hlo. simpl.
    rewrite Hask. simpl. by rewrite Hc. }
  by rewrite Hb.
Qed.

Lemma digit_is_digit n : is_digit (digit n) = true.
Proof.
  unfold digit. assert (Hlt : n mod 10 < 10) by (apply Nat.mod_upper_bound; lia).
  destruct (n mod 10) as [|[|[|[|[|[|[|[|[|[|k]]]]]]]]]]; try reflexivity. lia.
Qed.

Lemma is_timestamp_digits (y1 y2 y3 y4 m1 m2 d1 d2 h1 h2 n1 n2 s1 s2 : Ascii.ascii) :
  forallb is_digit [y1; y2; y3; y4; m1; m2; d1; d2; h1; h2; n1; n2; s1; s2] = true ->
  is_timestamp
    (String y1 (String y2 (String y3 (String y4 EmptyString)))
     +:+ "-" +:+ String m1 (String m2 EmptyString)
     +:+ "-" +:+ String d1 (String d2 EmptyString)
     +:+ " " +:+ String h1 (String h2 EmptyString)
     +:+ ":" +:+ String n1 (String n2 EmptyString)
     +:+ ":" +:+ String s1 (String s2 EmptyString)) = true.
Proof.
  intros Hd. unfold is_timestamp.
  lazy beta iota zeta delta [String.append String.list_ascii_of_string].
  by rewrite Hd.
Qed.

Lemma strftime_is_timestamp (t : datetime) : is_timestamp (strftime t) = true.
Proof.
  apply (is_timestamp_digits
           (digit (year t / 1000)) (digit (year t / 100)) (digit (year t / 10))
           (digit (year t))
           (digit (month t / 10)) (digit (month t))
           (digit (day t / 10)) (digit (day t))
           (digit (hour t / 10)) (digit (hour t))
           (digit (minute t / 10)) (digit (minute t))
           (digit (second t / 10)) (digit (second t))).
  cbn [forallb]. by rewrite !digit_is_digit.
Qed.

(** X27. [get_time_now] takes no argument: called with any keyword it
    raises a [TypeError] and the clock is not read; called with none it
    reads the clock once and returns, under [time], a text of the shape
    YYYY-MM-DD HH:MM:SS. *)
Theorem get_time_now_format w :
  (forall kwargs, kwargs <> [] ->
     exists msg, body (get_time_now out) kwargs w = (Raise (Exc TypeError msg), w))
  /\ body (get_time_now out) [] w
     = (Ok (Json (JObj [("time", JStr (strftime (now out w).1))])), (now out w).2)
  /\ (1000 <= year (now out w).1 -> is_timestamp (strftime (now out w).1) = true).
Proof.
  split_and!.
  - intros [|[k v] kwargs] Hne; [done|]. simpl. eauto.
  - simpl. by destruct (now out w).
  - intros _. apply strftime_is_timestamp.
Qed.

End ToolsFacts.

(** ** The properties of tools.py at work *)

(** X24 at work: the longitude is missing. *)
Lemma get_weather_needs_both_coordinates_witness :
  exists msg,
    body (tools.get_weather (Demo.rt "R" (Ok (JObj []))) tools.outside)
      [("latitude", JInt 49)] 0
    = (Raise (Exc TypeError msg), 0).
Proof.
  apply (get_weather_needs_both_coordinates (Demo.rt "R" (Ok (JObj []))) tools.outside
           [("latitude", JInt 49)] 0).
  right. left. reflexivity.
Defined.

(** X25 at work: the place the forecast service knows. *)
Lemma get_weather_returns_current_witness :
  body (tools.get_weather (Demo.rt "R" (Ok (JObj []))) tools.outside)
    [("longitude", JInt 2); ("latitude", JInt 49)] 0
  = (Ok (Json (JObj [("temperature_2m", JFloat 21.5)])), 1).
Proof.
  destruct (get_weather_returns_current (Demo.rt "R" (Ok (JObj []))) tools.outside
              [("longitude", JInt 2); ("latitude", JInt 49)] (JInt 49) (JInt 2) 0)
    as [Hok _].
  - reflexivity.
  - reflexivity.
  - intros k Hk. apply elem_of_cons in Hk as [->|Hk]; [by right|].
    apply elem_of_cons in Hk as [->|Hk]; [by left|]. by apply elem_of_nil in Hk.
  - apply (Hok [("latitude", JFloat 49.0);
                ("current", JObj [("temperature_2m", JFloat 21.5)])]);
      reflexivity.
Defined.

(** X26 at work: the model asks for the weather at a latitude of 120. *)
Lemma weather_error_body_reported_witness :
  let rt := Demo.rt "R" (Ok (JObj [])) in
  let weather := tools.get_weather rt tools.outside in
  let r := utils.register utils.new "get_weather" (utils.Function weather)
             (JStr "The weather.") (JObj []) in
  let kwargs := [("latitude", JInt 120); ("longitude", JInt 2)] in
  main._execute_tool rt (Demo.agent r)
    (Demo.decision "tool" "get_weather" (JObj kwargs)) Demo.start
  = (Ok (Json (JStr "Error: 'current'")), entered Demo.start weather kwargs 1).
Proof.
  intros rt weather r kwargs.
  apply (weather_error_body_reported rt tools.outside (Demo.agent r)
           (Demo.decision_fields "tool" "get_weather" (JObj kwargs))
           {| utils.function := utils.Function weather;
              utils.description := JStr "The weather.";
              utils.parameters := JObj [] |}
           kwargs (JInt 120) (JInt 2)
           [("error", JBool true);
            ("reason", JStr "Latitude must be in range of -90 to 90")] 1);
    try reflexivity.
  intros k Hk. apply elem_of_cons in Hk as [->|Hk]; [by left|].
  apply elem_of_cons in Hk as [->|Hk]; [by right|]. by apply elem_of_nil in Hk.
Defined.

(** X27 at work: five past nine on the first of June. *)
Lemma get_time_now_format_witness :
  body (tools.get_time_now tools.outside) [] 0
  = (Ok (Json (JObj [("time", JStr "2025-06-01 09:05:00")])), 1)
  /\ tools.is_timestamp "2025-06-01 09:05:00" = true.
Proof.
  destruct (get_time_now_format tools.outside 0) as (_ & Hbody & Hshape).
  split; [exact Hbody|]. apply Hshape. simpl. lia.
Defined.

(** C2 as the specification words it fails: the callable of the decision
    raises [KeyboardInterrupt], which is no [Exception]; the handler lets
    it through, no ["Error: ..."] result is produced, and the loop stops
    there instead of going on with the clock. *)
Lemma interrupt_not_reported :
  let d := Demo.decision "tool" "interrupted" (JObj []) in
  let later := Demo.decision "tool" "get_time_now" (JObj []) in
  let rt := Demo.rt "R" (Ok (Demo.tool_calls [d; later])) in
  let self := Demo.agent Lab.registry in
  let e := Exc (Other "KeyboardInterrupt" false) EmptyString in
  body Lab.interrupted [] 0 = (Raise e, 1)
  /\ main._execute_tool rt self d Demo.start
     = (Raise e, entered Demo.start Lab.interrupted [] 1)
  /\ (main.for_decisions rt self [d; later] ([], []) Demo.start).1 = Raise e
  /\ ~ observe.every_raise_reported rt self.
Proof.
  intros d later rt self e.
  assert (Hex : main._execute_tool rt self d Demo.start
                = (Raise e, entered Demo.start Lab.interrupted [] 1)) by reflexivity.
  split_and!; [reflexivity | exact Hex | reflexivity |].
  intros Hall.
  specialize (Hall (Demo.decision_fields "tool" "interrupted" (JObj [])) "interrupted"
                {| utils.function := utils.Function Lab.interrupted;
                   utils.description := JStr "Never comes back.";
                   utils.parameters := JObj [] |}
                Lab.interrupted [] e 1 Demo.start
                eq_refl eq_refl eq_refl eq_refl eq_refl eq_refl).
  vm_compute in Hall. discriminate.
Qed.
